(** * Satpam: token resolution over cookies and URL parameters

    A shallow embedding of [src/satpam.ts] (class [Satpam]) and the
    properties of its three public operations [verify], [setSession] and
    [getSession].

    Modelling conventions.
    - JavaScript values that flow through the class are strings,
      [undefined] and [null], and, through property reads that reach a
      prototype, numbers, functions and objects; they are the type
      [jsval].
    - The instance ([this]) is the record [Satpam]; every method is a
      function on that record.  Methods that can raise run in the small
      state-and-exception monad [M].  The hook is the one callee that may
      raise; [await] on its result is an ordinary call.
    - The object literal built by [_urlParamCheck] is a plain object: its
      own properties are a [gmap string jsval], and a read that finds no
      own property goes on to [Object.prototype].  A read on the
      [URLSearchParams] of a [URL] goes to its prototype chain.
    - [parseCookies] and [serializeCookie] live in [./utility], outside the
      class; they are total functions and parameters of the development.
      The result of [parseCookies] is the mapping from names to values
      that the interface promises.
    - The request and response carry [headers] objects, as their types say.
      Writes to the response (or to [document.cookie]) are recorded in the
      order they happen in the field [written]. *)

From Stdlib Require Import Ascii String DecimalString.
From stdpp Require Import base option list strings gmap.

Open Scope string_scope.

(** ** JavaScript values *)

Inductive jsval : Type :=
| JUndefined
| JNull
| JStr (s : string)
| JNum (n : nat)            (* a non-negative integer, as [size] is *)
| JRef (what : string).     (* a function or an object, named by its origin *)

Global Instance jsval_eq_dec : EqDecision jsval.
Proof. solve_decision. Defined.

(** [ToBoolean]: the empty string, [0], [undefined] and [null] are
    falsy; functions and objects are truthy. *)
Definition truthy (v : jsval) : bool :=
  match v with
  | JStr s => negb (String.eqb s "")
  | JNum n => negb (Nat.eqb n 0)
  | JRef _ => true
  | JUndefined | JNull => false
  end.

(** [v === ''] *)
Definition is_empty_string (v : jsval) : bool :=
  match v with
  | JStr s => String.eqb s ""
  | JUndefined | JNull | JNum _ | JRef _ => false
  end.

(** [typeof v === 'string' && v !== ''] *)
Definition is_nonempty_string (v : jsval) : bool :=
  match v with
  | JStr s => negb (String.eqb s "")
  | JUndefined | JNull | JNum _ | JRef _ => false
  end.

(** [a ?? b] *)
Definition nullish_or (a b : jsval) : jsval :=
  match a with
  | JUndefined | JNull => b
  | JStr _ | JNum _ | JRef _ => a
  end.

(** ** String primitives used by the class *)

(** [s.includes(c)] for a one-character [c]. *)
Fixpoint includes (c : ascii) (s : string) : bool :=
  match s with
  | EmptyString => false
  | String a r => if Ascii.eqb a c then true else includes c r
  end.

(** [s.split(c)] for a one-character separator: the pieces between the
    occurrences of [c], in order; never the empty array. *)
Fixpoint split (c : ascii) (s : string) : list string :=
  match s with
  | EmptyString => [EmptyString]
  | String a r =>
      if Ascii.eqb a c then EmptyString :: split c r
      else match split c r with
           | [] => [String a EmptyString]
           | piece :: rest => String a piece :: rest
           end
  end.

(** [arr[i]]: out of range reads give [undefined]. *)
Definition index (arr : list string) (i : nat) : jsval :=
  match arr !! i with
  | Some s => JStr s
  | None => JUndefined
  end.

(** The methods a plain object inherits from [Object.prototype]. *)
Definition Object_prototype_methods : list string :=
  ["constructor"; "hasOwnProperty"; "isPrototypeOf"; "propertyIsEnumerable";
   "toLocaleString"; "toString"; "valueOf"; "__defineGetter__";
   "__defineSetter__"; "__lookupGetter__"; "__lookupSetter__"].

(** [Object.prototype[k]]: its methods, and the accessor [__proto__],
    which on a plain object gives [Object.prototype] itself. *)
Definition Object_prototype (k : string) : jsval :=
  if String.eqb k "__proto__" then JRef "Object.prototype"
  else if bool_decide (k ∈ Object_prototype_methods)
       then JRef ("Object.prototype." +:+ k)
       else JUndefined.

(** [obj[k]] on a plain object with the own properties [obj]: the own
    property when there is one, else what [Object.prototype] has. *)
Definition prop (obj : gmap string jsval) (k : string) : jsval :=
  match obj !! k with
  | Some v => v
  | None => Object_prototype k
  end.

(** Modelled from the spec: [parseCookies] is in [./utility], which is
    not among the sources; by its interface (section 6) its result is a
    mapping from names to values, and [cookie[k]] is the value the mapping
    holds for [k], or [undefined]. *)
Definition cookie_entry (cookie : gmap string string) (k : string) : jsval :=
  match cookie !! k with
  | Some v => JStr v
  | None => JUndefined
  end.

(** ** URL parameter parsing (lines 70-72)

    [params.split('&').map(item => item.split('='))
           .reduce((acc, val) => ((acc[val[0]] = val[1]), acc), {})] *)

(** [acc[val[0]] = val[1]].  Under the key [__proto__] the assignment
    runs the setter of [Object.prototype], which ignores a string and
    [undefined]: no property is created. *)
Definition assign_pair (acc : gmap string jsval) (val : list string)
  : gmap string jsval :=
  match val with
  | key :: _ =>
      if String.eqb key "__proto__" then acc
      else <[key := index val 1]> acc
  | [] => <["undefined" := JUndefined]> acc  (* [split] never yields it *)
  end.

Definition parse_params (params : string) : gmap string jsval :=
  foldl assign_pair ∅ (map (split "=") (split "&" params)).

(** ** Data model *)

(** [SatpamSession] (lines 6-9).  The token field holds whatever the class
    stores there, which is [this.token] and can be [undefined]. *)
Record SatpamSession : Type := mkSession {
  status : bool;
  token : jsval;
}.

Global Instance SatpamSession_eq_dec : EqDecision SatpamSession.
Proof. solve_decision. Defined.

(** [SatpamOptions] (lines 11-20); every field is optional. *)
Record SatpamOptions : Type := mkOptions {
  opt_name : option string;
  opt_urlCheck : option string;
  opt_autoSetCookie : option bool;
}.

(** The [URL] instance as far as the class looks at it: the entries of
    [searchParams] and the [hash] string. *)
Record URL : Type := mkURL {
  searchParams : list (string * string);
  hash : string;
}.

(** [request.url : string | URL], possibly missing. *)
Inductive url_value : Type :=
| UrlAbsent
| UrlString (s : string)
| UrlObject (u : URL).

(** The request: the value of [headers['cookie']] and the url. *)
Record Request : Type := mkRequest {
  cookie_header : jsval;
  url : url_value;
}.

(** The response's [headers] value as [setSession] probes it.
    [typeof_object] is [false] for a value that is no object, the
    client-side case of line 210. *)
Record ResponseHeaders : Type := mkHeaders {
  typeof_object : bool;        (* typeof headers === 'object' *)
  has_setHeader : bool;        (* typeof headers['setHeader'] === 'function' *)
  instanceof_Headers : bool;   (* headers instanceof Headers *)
}.

(** What a call of [setSession] writes, and where. *)
Inductive write : Type :=
| CallSetHeader (key value : string)   (* headers.setHeader(key, value) *)
| HeadersSet (key value : string)      (* headers.set(key, value) *)
| AssignProp (key value : string)      (* headers[key] = value *)
| DocumentCookie (value : string).     (* window.document.cookie = value *)

(** The hook: a function of the candidate token that returns a value of
    type [OnVerifyHookReturn] or raises. *)
Inductive hook_result : Type :=
| HookReturns (v : jsval)
| HookThrows (e : jsval).

Definition hook_fn : Type := jsval -> hook_result.

(** The instance (lines 22-45).  [found_token] is the field [this.token];
    [written] is the trace of writes made through [this.response]. *)
Record Satpam : Type := mkSatpam {
  request : Request;
  response : ResponseHeaders;
  found_token : jsval;
  session : SatpamSession;
  name : string;
  urlCheck : string;
  hook : option hook_fn;
  autoSetCookie : bool;
  written : list write;
}.

Definition set_found_token (v : jsval) (this : Satpam) : Satpam :=
  mkSatpam (request this) (response this) v (session this) (name this)
           (urlCheck this) (hook this) (autoSetCookie this) (written this).

Definition set_session (s : SatpamSession) (this : Satpam) : Satpam :=
  mkSatpam (request this) (response this) (found_token this) s (name this)
           (urlCheck this) (hook this) (autoSetCookie this) (written this).

Definition set_hook (h : option hook_fn) (this : Satpam) : Satpam :=
  mkSatpam (request this) (response this) (found_token this) (session this)
           (name this) (urlCheck this) h (autoSetCookie this) (written this).

Definition emit (w : write) (this : Satpam) : Satpam :=
  mkSatpam (request this) (response this) (found_token this) (session this)
           (name this) (urlCheck this) (hook this) (autoSetCookie this)
           (written this ++ [w]).

(** Not operations of the class: the same instance built over another
    request url, or with another [urlCheck]; used to state independence. *)
Definition with_url (u : url_value) (this : Satpam) : Satpam :=
  mkSatpam (mkRequest (cookie_header (request this)) u) (response this)
           (found_token this) (session this) (name this) (urlCheck this)
           (hook this) (autoSetCookie this) (written this).

Definition with_urlCheck (k : string) (this : Satpam) : Satpam :=
  mkSatpam (request this) (response this) (found_token this) (session this)
           (name this) k (hook this) (autoSetCookie this) (written this).

(** ** The monad of methods that can raise *)

Inductive outcome (A : Type) : Type :=
| Return (a : A)
| Throw (e : jsval).
Arguments Return {A} a.
Arguments Throw {A} e.

Definition M (A : Type) : Type := Satpam -> outcome A * Satpam.

Definition ret {A} (a : A) : M A := fun this => (Return a, this).

Definition bind {A B} (m : M A) (k : A -> M B) : M B :=
  fun this =>
    match m this with
    | (Return a, this') => k a this'
    | (Throw e, this') => (Throw e, this')
    end.

Definition raise {A} (e : jsval) : M A := fun this => (Throw e, this).
Definition get {A} (f : Satpam -> A) : M A := fun this => (Return (f this), this).
Definition modify (f : Satpam -> Satpam) : M unit := fun this => (Return tt, f this).

Notation "'do' x <- m ; k" := (bind m (fun x => k))
  (at level 10, x name, m at level 100, k at level 200).
Notation "'run' m ; k" := (bind m (fun _ => k))
  (at level 10, m at level 100, k at level 200).

(** The value raised by reading a property of [undefined]. *)
Definition TypeError : jsval := JStr "TypeError".

(** ** Stand-ins for the collaborators

    Used only to run the model on concrete requests. *)

(** A cookie parser: [;]-separated [name=value] pairs, taken as they are;
    nothing for a missing header. *)
Definition simple_parseCookies (header : jsval) : gmap string string :=
  match header with
  | JStr s =>
      foldl (fun acc val =>
               match val with
               | [k; v] => <[k := v]> acc
               | _ => acc
               end)
            ∅ (map (split "=") (split ";" s))
  | JUndefined | JNull | JNum _ | JRef _ => ∅
  end.

(** [String(v)], with a function or object shown by its name. *)
Definition text_of (v : jsval) : string :=
  match v with
  | JStr s => s
  | JUndefined => "undefined"
  | JNull => "null"
  | JNum n => NilEmpty.string_of_uint (Nat.to_uint n)
  | JRef what => what
  end.

(** A cookie serializer that ignores the options. *)
Definition simple_serializeCookie (name : string) (value : jsval) (_ : unit)
  : string :=
  name +:+ "=" +:+ text_of value.

(** A response whose [headers] is a plain object. *)
Definition plain_headers : ResponseHeaders := mkHeaders true false false.

(** ** The class *)

Section Satpam.

(** The collaborators imported from [./utility] and the ambient globals. *)
Variable CookieSerializeOptions : Type.
Variable no_options : CookieSerializeOptions.      (* the default [{}] *)
Variable parseCookies : jsval -> gmap string string.
Variable serializeCookie : string -> jsval -> CookieSerializeOptions -> string.
Variable window_in_globalThis : bool.              (* 'window' in globalThis *)

(** [constructor] (lines 47-59).  [token] and [hook] are left unset. *)
Definition constructor (req : Request) (res : ResponseHeaders)
    (opt : SatpamOptions) : Satpam :=
  {| request := req;
     response := res;
     found_token := JUndefined;
     session := mkSession false (JStr "");
     name := default "satpam" (opt_name opt);
     urlCheck := default "" (opt_urlCheck opt);
     hook := None;
     autoSetCookie := default true (opt_autoSetCookie opt);
     written := [] |}.

(** [setSession] (lines 186-217).  The argument is the value passed for
    [token], [JUndefined] when it is left out; the default initialiser
    [= ''] replaces exactly that value.  Returns the cookie string, or
    nothing on the early return.  [this.name ?? 'satpam'] is [this.name]:
    the constructor always sets a string. *)
Definition setSession (arg : jsval) (opt : CookieSerializeOptions)
    (this : Satpam) : option string * Satpam :=
  let token := match arg with JUndefined => JStr "" | _ => arg end in
  let token := nullish_or token (found_token this) in
  if negb (truthy token) then (None, this)
  else
    let cookieString := serializeCookie (name this) token opt in
    let this := set_session (mkSession true (found_token this)) this in
    let headers := response this in
    if typeof_object headers then
      if has_setHeader headers then
        (Some cookieString, emit (CallSetHeader "Set-Cookie" cookieString) this)
      else if instanceof_Headers headers then
        (Some cookieString, emit (HeadersSet "Set-Cookie" cookieString) this)
      else
        (Some cookieString, emit (AssignProp "Set-Cookie" cookieString) this)
    else if window_in_globalThis then
      (Some cookieString, emit (DocumentCookie cookieString) this)
    else (Some cookieString, this).

(** [this.setSession(this.token)] inside a method of the monad. *)
Definition call_setSession (arg : jsval) : M unit :=
  fun this => (Return tt, snd (setSession arg no_options this)).

(** [getSession] (lines 225-227). *)
Definition getSession (this : Satpam) : SatpamSession := session this.

(** [await this.hook(token)] *)
Definition call_hook (h : hook_fn) (token : jsval) : M jsval :=
  match h token with
  | HookReturns v => ret v
  | HookThrows e => raise e
  end.

(** The tail shared by both halves of [_processToken]
    (lines 91-97 and 111-117). *)
Definition persist : M SatpamSession :=
  do auto <- get autoSetCookie;
  if (auto : bool) then
    do tok <- get found_token;
    run call_setSession tok;
    get session
  else
    do tok <- get found_token;
    run modify (set_session (mkSession true tok));
    get session.

(** Lines 101-102. *)
Definition not_found : M SatpamSession :=
  run modify (set_session (mkSession false (JStr "")));
  get session.

(** [_processToken] (lines 82-118). *)
Definition _processToken (token : jsval) : M SatpamSession :=
  if is_empty_string token then
    do h <- get hook;
    match h with
    | Some f =>
        do result <- call_hook f token;
        if is_nonempty_string result then
          run modify (set_found_token result);
          persist
        else not_found
    | None => not_found
    end
  else
    do h <- get hook;
    do token <- match h with
                | Some f =>
                    do result <- call_hook f token;
                    ret (if truthy result then result else token)
                | None => ret token
                end;
    run modify (set_found_token token);
    persist.

(** [_urlParamCheck] (lines 69-80).  A missing argument makes
    [params.split] raise. *)
Definition _urlParamCheck (params : jsval) : M SatpamSession :=
  match params with
  | JStr params =>
      let parsed := parse_params params in
      do key <- get urlCheck;
      if truthy (prop parsed key) then _processToken (prop parsed key)
      else _processToken (JStr "")
  | JUndefined | JNull | JNum _ | JRef _ => raise TypeError
  end.

(** [queries.has(k)] on a [URLSearchParams]. *)
Definition searchParams_has (u : URL) (k : string) : bool :=
  bool_decide (k ∈ (searchParams u).*1).

(** The methods of [URLSearchParams.prototype]. *)
Definition URLSearchParams_methods : list string :=
  ["append"; "delete"; "entries"; "forEach"; "get"; "getAll"; "has"; "keys";
   "set"; "sort"; "toString"; "values"; "constructor"].

(** [queries[k]] on a [URLSearchParams]: a property read on the object.
    The entries are kept in the object's internal list and are no
    properties of it, so the read finds what the prototype chain has: the
    getter [size], the methods of [URLSearchParams.prototype], and behind
    them [Object.prototype]; [undefined] for any other name. *)
Definition searchParams_prop (u : URL) (k : string) : jsval :=
  if String.eqb k "size" then JNum (length (searchParams u))
  else if bool_decide (k ∈ URLSearchParams_methods)
       then JRef ("URLSearchParams.prototype." +:+ k)
       else if String.eqb k "__proto__" then JRef "URLSearchParams.prototype"
            else Object_prototype k.

(** [!this.request.url] *)
Definition url_falsy (u : url_value) : bool :=
  match u with
  | UrlAbsent => true
  | UrlString s => String.eqb s ""
  | UrlObject _ => false
  end.

(** The body of [if (typeof this.request.url === 'string')]
    (lines 142-160): [Some m] when it returns through [m], [None] when
    control leaves the block. *)
Definition check_url_string (url : string) : option (M SatpamSession) :=
  let on_hash :=
    if includes "#" url then
      let queries := index (split "#" url) 1 in
      if negb (is_empty_string queries) then Some (_urlParamCheck queries)
      else None
    else None in
  if includes "?" url then
    let queries := index (split "?" url) 1 in
    if negb (is_empty_string queries) then Some (_urlParamCheck queries)
    else on_hash
  else on_hash.

(** The body of [if (this.request.url instanceof URL)] (lines 163-173). *)
Definition check_url_object (u : URL) (key : string)
  : option (M SatpamSession) :=
  if searchParams_has u key then Some (_processToken (searchParams_prop u key))
  else if negb (String.eqb (hash u) "") then Some (_urlParamCheck (JStr (hash u)))
  else None.

(** [verify] (lines 127-176); [cb] is [None] for the default [null]. *)
Definition verify (cb : option hook_fn) : M SatpamSession :=
  do cookies <- get (fun this => cookie_header (request this));
  let cookie := parseCookies cookies in
  do name <- get name;
  run modify (set_hook cb);
  if truthy (cookie_entry cookie name) then _processToken (cookie_entry cookie name)
  else
    do key <- get urlCheck;
    do url <- get (fun this => url (request this));
    if String.eqb key "" || url_falsy url then _processToken (JStr "")
    else
      match url with
      | UrlString s =>
          match check_url_string s with
          | Some m => m
          | None => _processToken (JStr "")
          end
      | UrlObject u =>
          match check_url_object u key with
          | Some m => m
          | None => _processToken (JStr "")
          end
      | UrlAbsent => _processToken (JStr "")
      end.

(** *** Predicates used in the statements *)

(** The writes of one successful [setSession], by the shape of the
    response headers. *)
Definition write_for (headers : ResponseHeaders) (cookieString : string)
  : list write :=
  if typeof_object headers then
    if has_setHeader headers then [CallSetHeader "Set-Cookie" cookieString]
    else if instanceof_Headers headers then [HeadersSet "Set-Cookie" cookieString]
    else [AssignProp "Set-Cookie" cookieString]
  else if window_in_globalThis then [DocumentCookie cookieString]
  else [].

(** The invariant of the data model: the status is [true] exactly when the
    token is a non-empty string. *)
Definition session_invariant (s : SatpamSession) : Prop :=
  status s = true <-> is_nonempty_string (token s) = true.

(** A value of the hook's declared return type,
    [string | undefined | null]. *)
Definition is_hook_return (v : jsval) : bool :=
  match v with
  | JStr _ | JUndefined | JNull => true
  | JNum _ | JRef _ => false
  end.

(** A hook argument of [verify] that keeps to its declared type. *)
Definition hook_typed (cb : option hook_fn) : Prop :=
  forall f tok v, cb = Some f -> f tok = HookReturns v -> is_hook_return v = true.

(** A name that no prototype answers to: neither [Object.prototype] nor
    [URLSearchParams.prototype] has a member of this name. *)
Definition ordinary_name (k : string) : bool :=
  negb (String.eqb k "size")
  && negb (bool_decide (k ∈ URLSearchParams_methods))
  && negb (String.eqb k "__proto__")
  && negb (bool_decide (k ∈ Object_prototype_methods)).

(** A value that is a non-empty string. *)
Definition nonempty (v : jsval) : option string :=
  match v with
  | JStr p => if String.eqb p "" then None else Some p
  | JUndefined | JNull | JNum _ | JRef _ => None
  end.

(** The second element of [url.split(c)] when [c] occurs: what lies between
    the first occurrence of [c] and the next one (or the end). *)
Definition part_after (c : ascii) (url : string) : jsval :=
  if includes c url then index (split c url) 1 else JUndefined.

(** *** Sample instances *)

(** No cookie, [urlCheck: 'tok']; the other options are left to their
    defaults unless [auto] says otherwise. *)
Definition tok_options (auto : option bool) : SatpamOptions :=
  mkOptions None (Some "tok") auto.

Definition no_options_given : SatpamOptions := mkOptions None None None.

(** A resolver over a request without cookie header and the given url. *)
Definition resolver_for (u : url_value) (auto : option bool) : Satpam :=
  constructor (mkRequest JUndefined u) plain_headers (tok_options auto).

(** A resolver over a request with the cookie header [satpam=old]. *)
Definition resolver_with_cookie (u : url_value) : Satpam :=
  constructor (mkRequest (JStr "satpam=old") u) plain_headers (tok_options None).

(** A freshly constructed resolver with default options. *)
Definition fresh_resolver : Satpam :=
  constructor (mkRequest JUndefined UrlAbsent) plain_headers no_options_given.

(** [new URL('http://h/p?tok=abc')]: one query parameter, no hash. *)
Definition url_with_query_tok : URL := mkURL [("tok", "abc")] "".

(** [new URL('http://h/p?tok=')]: the parameter is there, its value is
    empty. *)
Definition url_with_empty_tok : URL := mkURL [("tok", "")] "".

(** A resolver over a request without cookie header, with the given
    [urlCheck]. *)
Definition resolver_checking (key : string) (u : url_value)
    (auto : option bool) : Satpam :=
  constructor (mkRequest JUndefined u) plain_headers
              (mkOptions None (Some key) auto).

(** A hook that answers with a constant. *)
Definition constant_hook (v : jsval) : hook_fn := fun _ => HookReturns v.

(** A hook that raises. *)
Definition throwing_hook (e : jsval) : hook_fn := fun _ => HookThrows e.

(** A resolver with the given hook installed, as [verify] leaves it. *)
Definition resolver_with_hook (f : hook_fn) : Satpam :=
  set_hook (Some f) (resolver_for UrlAbsent None).

(** A resolver over a request that carries the cookie [satpam=abc]. *)
Definition resolver_after_round_trip : Satpam :=
  constructor (mkRequest (JStr "satpam=abc") UrlAbsent) plain_headers no_options_given.

(** [new URL('http://h/p#tok=B')] and [new URL('http://h/p#x&tok=B')]. *)
Definition url_with_hash_tok : URL := mkURL [] "#tok=B".
Definition url_with_later_hash_tok : URL := mkURL [] "#x&tok=B".

(** A string in which none of the characters [cs] occurs. *)
Definition free_of (cs : list ascii) (s : string) : bool :=
  forallb (fun c => negb (includes c s)) cs.

(** Two states of an instance with the same configuration and the same
    request and response. *)
Definition same_configuration (a b : Satpam) : Prop :=
  request a = request b /\ response a = response b /\ name a = name b
  /\ urlCheck a = urlCheck b /\ autoSetCookie a = autoSetCookie b.

(** The same instance over another request url and another [urlCheck]. *)
Definition elsewhere (u : url_value) (k : string) (this : Satpam) : Satpam :=
  with_urlCheck k (with_url u this).

(** A method that reads neither the request url nor [urlCheck]: run over
    another url and another [urlCheck], it returns the same value and
    leaves the same instance, up to these two fields. *)
Definition framed {A} (u : url_value) (k : string) (m : M A) : Prop :=
  forall this, m (elsewhere u k this) = (fst (m this), elsewhere u k (snd (m this))).

(** A method whose only exceptions are those of the hook. *)
Definition raises_only_from_hook {A} (m : M A) : Prop :=
  forall this e, fst (m this) = Throw e ->
    exists f tok, hook this = Some f /\ f tok = HookThrows e.

(** ** Basic facts *)

Lemma truthy_JStr (s : string) : truthy (JStr s) = true <-> s ≠ "".
Proof.
  simpl. rewrite negb_true_iff. apply String.eqb_neq.
Qed.

Lemma is_empty_string_JStr (s : string) : s ≠ "" -> is_empty_string (JStr s) = false.
Proof. intros H. simpl. by apply String.eqb_neq. Qed.

Lemma nonempty_string_is_JStr (v : jsval) :
  is_nonempty_string v = true -> exists s, v = JStr s /\ s ≠ "".
Proof.
  destruct v as [| |s| |]; simpl; try discriminate.
  intros H. exists s. split; [done|]. by apply truthy_JStr.
Qed.

(** Among the values of the hook's return type, the truthy ones are the
    non-empty strings. *)
Lemma hook_return_truthy (v : jsval) :
  is_hook_return v = true -> truthy v = true ->
  exists s, v = JStr s /\ s ≠ "".
Proof.
  destruct v as [| |s| |]; simpl; try discriminate.
  intros _ H. exists s. split; [done|]. by apply truthy_JStr.
Qed.

Lemma truthy_not_empty (v : jsval) : truthy v = true -> is_empty_string v = false.
Proof.
  destruct v as [| |s| |]; simpl; try done.
  by intros ->%negb_true_iff.
Qed.

Lemma falsy_not_nonempty_string (v : jsval) :
  truthy v = false -> is_nonempty_string v = false.
Proof. by destruct v. Qed.

Lemma nonempty_string_truthy (v : jsval) :
  is_nonempty_string v = true -> truthy v = true.
Proof. by destruct v. Qed.

Lemma nonempty_string_JStr (s : string) :
  s ≠ "" -> is_nonempty_string (JStr s) = true.
Proof. apply truthy_JStr. Qed.

(** A truthy argument is serialized as it is. *)
Lemma setSession_truthy (v : jsval) opt (this : Satpam) :
  truthy v = true ->
  setSession v opt this =
    (Some (serializeCookie (name this) v opt),
     mkSatpam (request this) (response this) (found_token this)
              (mkSession true (found_token this)) (name this) (urlCheck this)
              (hook this) (autoSetCookie this)
              (written this ++ write_for (response this)
                                 (serializeCookie (name this) v opt))).
Proof.
  intros Hv. unfold setSession, write_for.
  replace (nullish_or (match v with JUndefined => JStr "" | _ => v end)
                      (found_token this)) with v
    by (by destruct v).
  rewrite Hv. simpl negb. cbv iota.
  destruct this as [rq [o sh ih] ft ss nm uc hk au wr]; simpl.
  destruct o, sh, ih, window_in_globalThis; simpl;
    rewrite ?app_nil_r; reflexivity.
Qed.

Lemma setSession_nonempty (tok : string) opt (this : Satpam) :
  tok ≠ "" ->
  setSession (JStr tok) opt this =
    (Some (serializeCookie (name this) (JStr tok) opt),
     mkSatpam (request this) (response this) (found_token this)
              (mkSession true (found_token this)) (name this) (urlCheck this)
              (hook this) (autoSetCookie this)
              (written this ++ write_for (response this)
                                 (serializeCookie (name this) (JStr tok) opt))).
Proof. intros Htok. apply setSession_truthy. by apply truthy_JStr. Qed.

Lemma setSession_falsy (arg : jsval) opt (this : Satpam) :
  truthy (nullish_or (match arg with JUndefined => JStr "" | _ => arg end)
                     (found_token this)) = false ->
  setSession arg opt this = (None, this).
Proof. unfold setSession. by intros ->. Qed.

(** The tail of [_processToken] once [this.token] holds a usable token. *)
Lemma persist_found (this : Satpam) :
  truthy (found_token this) = true ->
  exists this',
    persist this = (Return (mkSession true (found_token this)), this')
    /\ session this' = mkSession true (found_token this)
    /\ found_token this' = found_token this
    /\ hook this' = hook this.
Proof.
  intros Htruthy.
  unfold persist, bind, get, modify, call_setSession.
  destruct (autoSetCookie this) eqn:Hauto.
  - rewrite setSession_truthy by done. simpl.
    eexists. repeat split; reflexivity.
  - simpl. eauto.
Qed.

Lemma not_found_spec (this : Satpam) :
  not_found this =
    (Return (mkSession false (JStr "")),
     set_session (mkSession false (JStr "")) this).
Proof. reflexivity. Qed.

(** ** [setSession] *)

(** C9.  [setSession('')] is a no-op for every instance and every options
    value: nothing is written, no field of the instance changes (the
    stored session included), and no value is returned. *)
Theorem setSession_empty_noop (opt : CookieSerializeOptions) (this : Satpam) :
  setSession (JStr "") opt this = (None, this).
Proof. reflexivity. Qed.

(** The default initialiser turns a left-out token into [''] before the
    [??] of line 188 is reached, so [this.token] is never consulted. *)
Lemma setSession_omitted (opt : CookieSerializeOptions) (this : Satpam) :
  setSession JUndefined opt this = (None, this).
Proof. reflexivity. Qed.

(** Only an explicit [null] reaches the fallback to [this.token]. *)
Lemma setSession_null (opt : CookieSerializeOptions) (this : Satpam) :
  setSession JNull opt this = setSession (found_token this) opt this.
Proof.
  unfold setSession. simpl nullish_or.
  destruct (found_token this); reflexivity.
Qed.

(** The session stored by a successful [setSession] carries [this.token],
    whatever token was serialized. *)
Lemma setSession_session (tok : string) opt (this : Satpam) :
  tok ≠ "" ->
  session (snd (setSession (JStr tok) opt this))
    = mkSession true (found_token this).
Proof. intros H. by rewrite setSession_nonempty. Qed.

(** ** [_processToken] *)

(** C7.  For a found (non-empty) candidate [t]: a hook that returns a
    non-empty string [r] makes [r] the resolved token; a hook that returns
    an empty or absent value, and a missing hook, keep [t]; the session
    returned and stored has status [true] in each case. *)
Theorem hook_replaces_found_token (t : string) (this : Satpam) :
  t ≠ "" ->
  (forall f r, hook this = Some f -> f (JStr t) = HookReturns (JStr r) -> r ≠ "" ->
     exists this',
       _processToken (JStr t) this = (Return (mkSession true (JStr r)), this')
       /\ session this' = mkSession true (JStr r)
       /\ found_token this' = JStr r)
  /\ (forall f v, hook this = Some f -> f (JStr t) = HookReturns v -> truthy v = false ->
     exists this',
       _processToken (JStr t) this = (Return (mkSession true (JStr t)), this')
       /\ session this' = mkSession true (JStr t)
       /\ found_token this' = JStr t)
  /\ (hook this = None ->
     exists this',
       _processToken (JStr t) this = (Return (mkSession true (JStr t)), this')
       /\ session this' = mkSession true (JStr t)
       /\ found_token this' = JStr t).
Proof.
  intros Ht.
  assert (Hpersist : forall tok, tok ≠ "" ->
            exists this',
              persist (set_found_token (JStr tok) this)
                = (Return (mkSession true (JStr tok)), this')
              /\ session this' = mkSession true (JStr tok)
              /\ found_token this' = JStr tok).
  { intros tok Htok.
    destruct (persist_found (set_found_token (JStr tok) this))
      as (this' & Hrun & Hs & Hf & _); [by apply truthy_JStr|].
    exists this'. by rewrite Hrun, Hs, Hf. }
  unfold _processToken. rewrite (is_empty_string_JStr t Ht).
  split; [|split].
  - intros f r Hhook Hf Hr.
    destruct (Hpersist r Hr) as (this' & Hrun & Hrest).
    exists this'. split; [|exact Hrest].
    unfold bind, get, call_hook, ret, modify. rewrite Hhook, Hf.
    apply truthy_JStr in Hr as ->. exact Hrun.
  - intros f v Hhook Hf Hv.
    destruct (Hpersist t Ht) as (this' & Hrun & Hrest).
    exists this'. split; [|exact Hrest].
    unfold bind, get, call_hook, ret, modify. rewrite Hhook, Hf, Hv.
    exact Hrun.
  - intros Hhook.
    destruct (Hpersist t Ht) as (this' & Hrun & Hrest).
    exists this'. split; [|exact Hrest].
    unfold bind, get, ret, modify. rewrite Hhook. exact Hrun.
Qed.

(** Nothing found and no hook: the session is reset. *)
Lemma processToken_empty_no_hook (this : Satpam) :
  hook this = None ->
  _processToken (JStr "") this
    = (Return (mkSession false (JStr "")),
       set_session (mkSession false (JStr "")) this).
Proof.
  intros H. unfold _processToken, bind, get. cbn. by rewrite H.
Qed.

(** ** [verify]: the cookie comes first *)

Lemma framed_bind {A B} u k (m : M A) (f : A -> M B) :
  framed u k m -> (forall a, framed u k (f a)) -> framed u k (bind m f).
Proof.
  intros Hm Hf this. unfold bind. rewrite Hm.
  destruct (m this) as [[a|e] this']; simpl; [apply Hf | reflexivity].
Qed.

Lemma framed_ret {A} u k (a : A) : framed u k (ret a).
Proof. by intros this. Qed.

Lemma framed_setSession u k arg opt (this : Satpam) :
  setSession arg opt (elsewhere u k this)
    = (fst (setSession arg opt this), elsewhere u k (snd (setSession arg opt this))).
Proof.
  unfold setSession.
  destruct this as [rq [o sh ih] ft ss nm uc hk au wr]; simpl.
  destruct (truthy (nullish_or _ ft)); simpl; [|reflexivity].
  destruct o, sh, ih, window_in_globalThis; reflexivity.
Qed.

Lemma framed_persist u k : framed u k persist.
Proof.
  intros this. unfold persist, bind, get, modify, call_setSession.
  replace (autoSetCookie (elsewhere u k this)) with (autoSetCookie this)
    by by destruct this.
  replace (found_token (elsewhere u k this)) with (found_token this)
    by by destruct this.
  destruct (autoSetCookie this); [|by destruct this].
  rewrite framed_setSession. simpl.
  by destruct (setSession _ _ this) as [? []].
Qed.

Lemma framed_not_found u k : framed u k not_found.
Proof. intros this. by destruct this. Qed.

Lemma framed_call_hook u k f tok : framed u k (call_hook f tok).
Proof. intros this. unfold call_hook. by destruct (f tok). Qed.

Lemma framed_set_found_token u k v : framed u k (modify (set_found_token v)).
Proof. intros this. by destruct this. Qed.

Lemma framed_processToken u k tok : framed u k (_processToken tok).
Proof.
  unfold _processToken.
  assert (Hget : forall (g : option hook_fn -> M SatpamSession),
            (forall h, framed u k (g h)) -> framed u k (bind (get hook) g)).
  { intros g Hg this. unfold bind, get.
    replace (hook (elsewhere u k this)) with (hook this) by by destruct this.
    apply Hg. }
  destruct (is_empty_string tok).
  - apply Hget. intros [f|]; [|apply framed_not_found].
    apply framed_bind; [apply framed_call_hook|].
    intros result. destruct (is_nonempty_string result).
    + apply framed_bind; [apply framed_set_found_token|].
      intros _. apply framed_persist.
    + apply framed_not_found.
  - apply Hget. intros h. apply framed_bind.
    + destruct h as [f|]; [|apply framed_ret].
      apply framed_bind; [apply framed_call_hook|].
      intros result. apply framed_ret.
    + intros tok'. apply framed_bind; [apply framed_set_found_token|].
      intros _. apply framed_persist.
Qed.

Lemma cookie_prop (m : gmap string string) (k v : string) :
  m !! k = Some v -> cookie_entry m k = JStr v.
Proof. intros H. unfold cookie_entry. by rewrite H. Qed.

(** C1.  When the parsed cookies hold a non-empty entry for the cookie
    name, [verify] hands that entry to [_processToken]; the outcome does
    not depend on the request url nor on [urlCheck]: over any other url and
    any other [urlCheck] the result is the same and the instance ends up
    the same, up to those two fields. *)
Theorem cookie_precedence (cb : option hook_fn) (this : Satpam) (v : string) :
  parseCookies (cookie_header (request this)) !! name this = Some v ->
  v ≠ "" ->
  verify cb this = _processToken (JStr v) (set_hook cb this)
  /\ forall u k,
       verify cb (elsewhere u k this)
         = (fst (verify cb this), elsewhere u k (snd (verify cb this))).
Proof.
  intros Hcookie Hv.
  assert (Hrun : forall th,
            parseCookies (cookie_header (request th)) !! name th = Some v ->
            verify cb th = _processToken (JStr v) (set_hook cb th)).
  { intros th Hth. unfold verify, bind, get, modify. cbv beta iota.
    rewrite (cookie_prop _ _ _ Hth).
    by apply truthy_JStr in Hv as ->. }
  split; [by apply Hrun|].
  intros u k. rewrite !Hrun by (by destruct this).
  replace (set_hook cb (elsewhere u k this))
    with (elsewhere u k (set_hook cb this)) by by destruct this.
  apply framed_processToken.
Qed.

(** ** [verify]: nothing found *)

Lemma split_not_nil (c : ascii) (s : string) : split c s ≠ [].
Proof.
  destruct s as [|a r]; simpl; [done|].
  destruct (Ascii.eqb a c); [done|]. by destruct (split c r).
Qed.

(** After [includes], the destructuring [[_, queries] = url.split(c)]
    binds a string. *)
Lemma includes_split (c : ascii) (s : string) :
  includes c s = true -> exists q, index (split c s) 1 = JStr q.
Proof.
  induction s as [|a r IH]; simpl; [discriminate|].
  destruct (Ascii.eqb a c).
  - intros _. pose proof (split_not_nil c r) as Hne.
    destruct (split c r) as [|q rest]; [done|]. by exists q.
  - intros Hin. destruct (IH Hin) as [q Hq]. exists q.
    destruct (split c r) as [|piece rest]; [done|]. exact Hq.
Qed.

Lemma part_after_cases (c : ascii) (s : string) :
  (includes c s = false /\ part_after c s = JUndefined)
  \/ (exists q, includes c s = true /\ index (split c s) 1 = JStr q
                /\ part_after c s = JStr q).
Proof.
  unfold part_after. destruct (includes c s) eqn:Hin; [right|by left].
  destruct (includes_split c s Hin) as [q Hq]. exists q. by rewrite Hq.
Qed.

(** How the string block of [verify] leaves: through the query when it is
    non-empty, else through the fragment when it is non-empty, else by
    falling out of the block. *)
Lemma check_url_string_eq (s : string) :
  check_url_string s =
    match nonempty (part_after "?" s) with
    | Some q => Some (_urlParamCheck (JStr q))
    | None =>
        match nonempty (part_after "#" s) with
        | Some q => Some (_urlParamCheck (JStr q))
        | None => None
        end
    end.
Proof.
  unfold check_url_string.
  destruct (part_after_cases "#" s) as [[-> ->]|(h & -> & -> & ->)];
    destruct (part_after_cases "?" s) as [[-> ->]|(q & -> & -> & ->)];
    simpl; try destruct (String.eqb q ""); simpl;
    try destruct (String.eqb h ""); reflexivity.
Qed.

Lemma nonempty_Some (v : jsval) (p : string) :
  nonempty v = Some p -> v = JStr p /\ p ≠ "".
Proof.
  destruct v as [| |q| |]; simpl; try discriminate.
  destruct (String.eqb q "") eqn:Hq; [discriminate|].
  intros [= ->]. split; [done|]. by apply String.eqb_neq.
Qed.

(** *** What can raise *)

Lemma persist_returns (this : Satpam) : exists s, fst (persist this) = Return s.
Proof.
  unfold persist, bind, get, modify, call_setSession.
  destruct (autoSetCookie this); simpl; eauto.
Qed.

Lemma processToken_raises tok : raises_only_from_hook (_processToken tok).
Proof.
  intros this e. unfold _processToken.
  destruct (is_empty_string tok); unfold bind at 1, get at 1; cbv beta iota;
    destruct (hook this) as [f|] eqn:Hhook.
  - unfold bind, call_hook, ret, raise. destruct (f tok) as [v|e'] eqn:Hf.
    + destruct (is_nonempty_string v); [|discriminate].
      unfold modify.
      destruct (persist_returns (set_found_token v this)) as [s' Hs'].
      rewrite Hs'. discriminate.
    + simpl. intros [= <-]. eauto.
  - discriminate.
  - unfold bind, call_hook, ret, raise, modify.
    destruct (f tok) as [v|e'] eqn:Hf.
    + destruct (persist_returns
                  (set_found_token (if truthy v then v else tok) this))
        as [s' Hs'].
      rewrite Hs'. discriminate.
    + simpl. intros [= <-]. eauto.
  - unfold bind, ret, modify.
    destruct (persist_returns (set_found_token tok this)) as [s' Hs'].
    rewrite Hs'. discriminate.
Qed.

Lemma urlParamCheck_raises (p : string) : raises_only_from_hook (_urlParamCheck (JStr p)).
Proof.
  intros this e. unfold _urlParamCheck, bind, get.
  destruct (truthy _); apply processToken_raises.
Qed.

Lemma verify_raises (cb : option hook_fn) (this : Satpam) (e : jsval) :
  fst (verify cb this) = Throw e ->
  exists f tok, cb = Some f /\ f tok = HookThrows e.
Proof.
  assert (Hp : forall tok, fst (_processToken tok (set_hook cb this)) = Throw e ->
                 exists f tok', cb = Some f /\ f tok' = HookThrows e).
  { intros tok H. by apply processToken_raises in H. }
  assert (Hu : forall p, fst (_urlParamCheck (JStr p) (set_hook cb this)) = Throw e ->
                 exists f tok', cb = Some f /\ f tok' = HookThrows e).
  { intros p H. by apply urlParamCheck_raises in H. }
  unfold verify, bind, get, modify. cbv beta iota.
  destruct (truthy _); [apply Hp|].
  destruct (_ || _); [apply Hp|].
  destruct (url (request (set_hook cb this))) as [|s|u]; [apply Hp| |].
  - rewrite check_url_string_eq.
    destruct (nonempty (part_after "?" s)); [apply Hu|].
    destruct (nonempty (part_after "#" s)); [apply Hu|apply Hp].
  - unfold check_url_object.
    destruct (searchParams_has _ _); [apply Hp|].
    destruct (negb _); [apply Hu|apply Hp].
Qed.

(** ** The hand-written parameter parser *)

Lemma split_no_sep (c : ascii) (s : string) :
  includes c s = false -> split c s = [s].
Proof.
  induction s as [|a r IH]; simpl; [done|].
  destruct (Ascii.eqb a c); [discriminate|].
  intros H. by rewrite (IH H).
Qed.

Lemma split_app (c : ascii) (x y : string) :
  split c (x +:+ String c y) = (split c x ++ split c y)%list.
Proof.
  induction x as [|a r IH]; simpl.
  - by rewrite Ascii.eqb_refl.
  - rewrite IH. destruct (Ascii.eqb a c); [done|].
    pose proof (split_not_nil c r) as Hne.
    by destruct (split c r).
Qed.

Lemma parse_params_snoc (before item : string) :
  includes "&" item = false ->
  parse_params (before +:+ String "&" item)
    = assign_pair (parse_params before) (split "=" item).
Proof.
  intros H. unfold parse_params.
  by rewrite split_app, (split_no_sep _ _ H), map_app, foldl_app.
Qed.

Lemma parse_params_single (item : string) :
  includes "&" item = false ->
  parse_params item = assign_pair ∅ (split "=" item).
Proof.
  intros H. unfold parse_params. by rewrite (split_no_sep _ _ H).
Qed.

Lemma assign_pair_cons (acc : gmap string jsval) (key : string)
    (rest : list string) :
  key ≠ "__proto__" ->
  assign_pair acc (key :: rest) = <[key := index (key :: rest) 1]> acc.
Proof.
  intros H. unfold assign_pair. by rewrite (proj2 (String.eqb_neq _ _) H).
Qed.

Lemma assign_pair_proto (acc : gmap string jsval) (rest : list string) :
  assign_pair acc ("__proto__" :: rest) = acc.
Proof. reflexivity. Qed.

(** C10.  For every key [k] other than ['__proto__'], a pair
    [k=a=b] whose value [a=b] contains ['='] is stored under [k] with the
    value [a], the piece between the first and the second ['=']; [=b] is
    dropped.  So a token given as the [urlCheck] parameter reaches
    [_processToken] cut at its first ['=']. *)
Theorem value_cut_at_second_equals (k a b : string) :
  k ≠ "__proto__" ->
  includes "=" k = false ->
  includes "=" a = false ->
  let pair := k +:+ "=" +:+ a +:+ "=" +:+ b in
  (forall acc, assign_pair acc (split "=" pair) = <[k := JStr a]> acc)
  /\ (includes "&" pair = false ->
      prop (parse_params pair) k = JStr a
      /\ forall before, prop (parse_params (before +:+ "&" +:+ pair)) k = JStr a)
  /\ (includes "&" pair = false -> a ≠ "" ->
      forall this, urlCheck this = k ->
        _urlParamCheck (JStr pair) this = _processToken (JStr a) this).
Proof.
  intros Hproto Hk Ha pair.
  assert (Hsplit : split "=" pair = k :: a :: split "=" b).
  { unfold pair. change ("=" +:+ a +:+ "=" +:+ b) with (String "=" (a +:+ String "=" b)).
    by rewrite !split_app, (split_no_sep _ _ Hk), (split_no_sep _ _ Ha). }
  assert (Hassign : forall acc, assign_pair acc (split "=" pair) = <[k := JStr a]> acc).
  { intros acc. by rewrite Hsplit, assign_pair_cons. }
  assert (Hone : includes "&" pair = false -> prop (parse_params pair) k = JStr a).
  { intros Hamp. unfold prop.
    by rewrite parse_params_single, Hassign, lookup_insert_eq. }
  split; [exact Hassign|]. split.
  - intros Hamp. split; [by apply Hone|].
    intros before. unfold prop.
    change ("&" +:+ pair) with (String "&" pair).
    by rewrite parse_params_snoc, Hassign, lookup_insert_eq.
  - intros Hamp Hne this Huc.
    unfold _urlParamCheck, bind, get. rewrite Huc, (Hone Hamp).
    by apply truthy_JStr in Hne as ->.
Qed.

(** ** Where [verify] goes without a usable cookie *)

(** A string url with a non-empty query returns through the query check,
    whatever the fragment holds (line 149). *)
Lemma string_url_nonempty_query (cb : option hook_fn) (this : Satpam) (s q : string) :
  truthy (cookie_entry (parseCookies (cookie_header (request this))) (name this)) = false ->
  urlCheck this ≠ "" ->
  url (request this) = UrlString s ->
  nonempty (part_after "?" s) = Some q ->
  verify cb this = _urlParamCheck (JStr q) (set_hook cb this).
Proof.
  intros Hcookie Hkey Hurl Hq.
  assert (Hs : s ≠ "").
  { intros ->. discriminate Hq. }
  unfold verify, bind, get, modify. cbv beta iota.
  change (name (set_hook cb this)) with (name this).
  change (request (set_hook cb this)) with (request this).
  rewrite Hcookie. cbv beta iota.
  change (request (set_hook cb this)) with (request this).
  change (urlCheck (set_hook cb this)) with (urlCheck this).
  rewrite Hurl. unfold url_falsy.
  rewrite (proj2 (String.eqb_neq _ _) Hkey), (proj2 (String.eqb_neq _ _) Hs).
  simpl orb. cbv iota.
  by rewrite check_url_string_eq, Hq.
Qed.

(** A [URL] instance whose [searchParams] has the parameter: the token
    handed on is the property read [queries[urlCheck]] (line 166). *)
Lemma url_object_has_param (cb : option hook_fn) (this : Satpam) (u : URL) :
  truthy (cookie_entry (parseCookies (cookie_header (request this))) (name this)) = false ->
  urlCheck this ≠ "" ->
  url (request this) = UrlObject u ->
  searchParams_has u (urlCheck this) = true ->
  searchParams_prop u (urlCheck this) = JUndefined ->
  verify cb this = _processToken JUndefined (set_hook cb this).
Proof.
  intros Hcookie Hkey Hurl Hhas Hprop.
  unfold verify, bind, get, modify. cbv beta iota.
  change (name (set_hook cb this)) with (name this).
  change (request (set_hook cb this)) with (request this).
  rewrite Hcookie. cbv beta iota.
  change (request (set_hook cb this)) with (request this).
  change (urlCheck (set_hook cb this)) with (urlCheck this).
  rewrite Hurl. unfold url_falsy.
  rewrite (proj2 (String.eqb_neq _ _) Hkey). simpl orb. cbv iota.
  unfold check_url_object. by rewrite Hhas, Hprop.
Qed.

(** A string candidate always leaves a session that meets the invariant,
    when the hook keeps to its return type. *)
Lemma processToken_string_invariant (t : string) (this : Satpam) s this' :
  hook_typed (hook this) ->
  _processToken (JStr t) this = (Return s, this') ->
  s = session this' /\ session_invariant s.
Proof.
  intros Htyped.
  assert (Hfound : forall v th, is_nonempty_string v = true ->
            persist (set_found_token v th) = (Return s, this') ->
            s = session this' /\ session_invariant s).
  { intros v th Hv Hrun.
    destruct (persist_found (set_found_token v th)) as (th' & Hrun' & Hs & _);
      [by apply nonempty_string_truthy|].
    rewrite Hrun' in Hrun. injection Hrun as <- <-.
    split; [by rewrite Hs|].
    unfold session_invariant. simpl. by rewrite Hv. }
  assert (Hnone : forall th, not_found th = (Return s, this') ->
            s = session this' /\ session_invariant s).
  { intros th. rewrite not_found_spec. intros [= <- <-]. split; [done|].
    unfold session_invariant. simpl. split; discriminate. }
  unfold _processToken.
  destruct (is_empty_string (JStr t)) eqn:Hempty;
    unfold bind at 1, get at 1; cbv beta iota;
    destruct (hook this) as [f|] eqn:Hhook.
  - unfold bind, call_hook, ret, raise, modify.
    destruct (f (JStr t)) as [v|e]; [|discriminate].
    destruct (is_nonempty_string v) eqn:Hv; [by apply Hfound|apply Hnone].
  - apply Hnone.
  - unfold bind, call_hook, ret, raise, modify.
    destruct (f (JStr t)) as [v|e] eqn:Hf; [|discriminate].
    apply Hfound. destruct (truthy v) eqn:Hv.
    + destruct (hook_return_truthy v (Htyped f (JStr t) v eq_refl Hf) Hv)
        as (r & -> & Hr).
      by apply nonempty_string_JStr.
    + simpl in *. by rewrite Hempty.
  - unfold bind, ret, modify. apply Hfound. simpl in *. by rewrite Hempty.
Qed.

(** ** More on [setSession] *)

Lemma write_for_length (headers : ResponseHeaders) (c : string) :
  length (write_for headers c) <= 1
  /\ (length (write_for headers c) = 0
      <-> typeof_object headers = false /\ window_in_globalThis = false).
Proof.
  unfold write_for.
  destruct (typeof_object headers), (has_setHeader headers),
    (instanceof_Headers headers), window_in_globalThis; simpl;
    (split; [lia|]); split; try discriminate; try done;
    intros [? ?]; discriminate.
Qed.

(** X1.  [setSession] with a non-empty token returns the serialized cookie
    and sets the status to [true]; it leaves the configuration, the found
    token and the hook alone; it makes at most one write, and none exactly
    when the response headers are no object and there is no [window]. *)
Theorem setSession_single_write (tok : string) opt (this : Satpam) :
  tok ≠ "" ->
  let c := serializeCookie (name this) (JStr tok) opt in
  let after := snd (setSession (JStr tok) opt this) in
  fst (setSession (JStr tok) opt this) = Some c
  /\ same_configuration this after
  /\ found_token after = found_token this
  /\ hook after = hook this
  /\ status (session after) = true
  /\ (exists ws, written after = (written this ++ ws)%list
                 /\ length ws <= 1
                 /\ (length ws = 0 <-> typeof_object (response this) = false
                                       /\ window_in_globalThis = false)).
Proof.
  intros Htok c after. unfold after, c.
  rewrite setSession_nonempty by done. simpl.
  repeat (split; [done|]).
  eexists. split; [reflexivity|]. apply write_for_length.
Qed.

(** X2.  An explicit [null] is the one argument that falls back to the
    found token: with [this.token] a non-empty string [t],
    [setSession(null)] serializes [t] and stores [{status: true, token: t}]. *)
Theorem setSession_null_uses_found_token (t : string) opt (this : Satpam) :
  t ≠ "" ->
  found_token this = JStr t ->
  setSession JNull opt this = setSession (JStr t) opt this
  /\ fst (setSession JNull opt this) = Some (serializeCookie (name this) (JStr t) opt)
  /\ session (snd (setSession JNull opt this)) = mkSession true (JStr t).
Proof.
  intros Ht Hfound.
  assert (Heq : setSession JNull opt this = setSession (JStr t) opt this).
  { unfold setSession. simpl nullish_or. by rewrite Hfound. }
  rewrite Heq, setSession_nonempty by done. simpl. by rewrite Hfound.
Qed.

(** ** More on [_processToken] *)

Lemma setSession_found_token opt (this : Satpam) :
  truthy (found_token this) = false ->
  setSession (found_token this) opt this = (None, this).
Proof.
  intros H. apply setSession_falsy.
  by destruct (found_token this).
Qed.

(** What the tail of [_processToken] does, in every case. *)
Lemma persist_effect (th : Satpam) :
  same_configuration th (snd (persist th))
  /\ hook (snd (persist th)) = hook th
  /\ found_token (snd (persist th)) = found_token th
  /\ fst (persist th) = Return (session (snd (persist th)))
  /\ (autoSetCookie th = false ->
        written (snd (persist th)) = written th
        /\ session (snd (persist th)) = mkSession true (found_token th))
  /\ (autoSetCookie th = true -> truthy (found_token th) = false ->
        snd (persist th) = th)
  /\ (autoSetCookie th = true -> truthy (found_token th) = true ->
        session (snd (persist th)) = mkSession true (found_token th)
        /\ written (snd (persist th))
             = (written th
                ++ write_for (response th)
                     (serializeCookie (name th) (found_token th) no_options))%list).
Proof.
  unfold persist, bind, get, modify, call_setSession.
  destruct (autoSetCookie th) eqn:Hauto.
  - destruct (truthy (found_token th)) eqn:Htruthy.
    + rewrite setSession_truthy by done. simpl.
      by repeat (split; [done|]).
    + rewrite setSession_found_token by done. simpl.
      by repeat (split; [done|]).
  - simpl. repeat (split; [done|]). discriminate.
Qed.

(** X3.  Nothing found and a hook that returns a non-empty string [r]: the
    hook has minted the token.  The session returned and stored is
    [{status: true, token: r}], [this.token] is [r]; with [autoSetCookie]
    the write of [setSession] for [r] is made, without it nothing is
    written. *)
Theorem hook_mints_token (f : hook_fn) (r : string) (this : Satpam) :
  hook this = Some f ->
  f (JStr "") = HookReturns (JStr r) ->
  r ≠ "" ->
  let after := snd (_processToken (JStr "") this) in
  fst (_processToken (JStr "") this) = Return (mkSession true (JStr r))
  /\ session after = mkSession true (JStr r)
  /\ found_token after = JStr r
  /\ written after
       = (written this
          ++ if autoSetCookie this
             then write_for (response this)
                            (serializeCookie (name this) (JStr r) no_options)
             else [])%list.
Proof.
  intros Hhook Hf Hr after. unfold after. clear after.
  assert (Heq : _processToken (JStr "") this
                = persist (set_found_token (JStr r) this)).
  { unfold _processToken. change (is_empty_string (JStr "")) with true.
    cbv iota. unfold bind, get, call_hook, ret, modify. rewrite Hhook, Hf.
    by rewrite (nonempty_string_JStr r Hr). }
  rewrite Heq.
  set (th := set_found_token (JStr r) this).
  destruct (persist_effect th) as (_ & _ & Hft & Hret & Hoff & _ & Hon).
  rewrite Hret, Hft.
  change (autoSetCookie this) with (autoSetCookie th).
  change (written this) with (written th).
  change (response this) with (response th).
  change (name this) with (name th).
  destruct (autoSetCookie th) eqn:Hauto.
  - destruct (Hon eq_refl (proj2 (truthy_JStr r) Hr)) as [Hs Hw].
    by rewrite Hs, Hw.
  - destruct (Hoff eq_refl) as [Hw Hs]. by rewrite Hs, Hw, app_nil_r.
Qed.

(** X4.  Nothing found and a hook that returns an empty or absent value:
    the session is reset to [{status: false, token: ''}]; nothing is
    written and [this.token] keeps its value. *)
Theorem hook_declines_no_token (f : hook_fn) (v : jsval) (this : Satpam) :
  hook this = Some f ->
  f (JStr "") = HookReturns v ->
  truthy v = false ->
  _processToken (JStr "") this
    = (Return (mkSession false (JStr "")),
       set_session (mkSession false (JStr "")) this).
Proof.
  intros Hhook Hf Hv. unfold _processToken.
  change (is_empty_string (JStr "")) with true. cbv iota.
  unfold bind, get, call_hook, ret. rewrite Hhook, Hf.
  by rewrite (falsy_not_nonempty_string v Hv).
Qed.

(** X5.  An exception of the hook leaves [_processToken] at once, for
    every candidate: the instance is exactly as before, so the stored
    session and token are untouched and nothing is written. *)
Theorem hook_exception_propagates (f : hook_fn) (tok e : jsval) (this : Satpam) :
  hook this = Some f ->
  f tok = HookThrows e ->
  _processToken tok this = (Throw e, this).
Proof.
  intros Hhook Hf. unfold _processToken.
  destruct (is_empty_string tok);
    unfold bind, get, call_hook, raise; by rewrite Hhook, Hf.
Qed.

(** ** The effect of [verify] on the instance *)

(** [_processToken] ends in one of three ways; the value it stores as
    [this.token] is the candidate or what the hook returned. *)
Lemma processToken_shape (tok : jsval) (this : Satpam) :
  (exists e, _processToken tok this = (Throw e, this))
  \/ _processToken tok this = not_found this
  \/ (exists v, _processToken tok this = persist (set_found_token v this)
                /\ (v = tok
                    \/ exists f, hook this = Some f /\ f tok = HookReturns v)).
Proof.
  unfold _processToken.
  destruct (is_empty_string tok);
    unfold bind, get, call_hook, ret, raise, modify;
    destruct (hook this) as [f|].
  - destruct (f tok) as [v|e] eqn:Hf; [|left; by exists e].
    destruct (is_nonempty_string v); [|right; by left].
    right; right. exists v. split; [done|]. right. by exists f.
  - right; by left.
  - destruct (f tok) as [v|e] eqn:Hf; [|left; by exists e].
    right; right. eexists. split; [done|].
    destruct (truthy v); [right; by exists f|by left].
  - right; right. eexists. split; [done|]. by left.
Qed.

Lemma processToken_effect (tok : jsval) (this : Satpam) :
  same_configuration this (snd (_processToken tok this))
  /\ hook (snd (_processToken tok this)) = hook this
  /\ (forall s, fst (_processToken tok this) = Return s ->
        s = session (snd (_processToken tok this)))
  /\ (autoSetCookie this = false ->
        written (snd (_processToken tok this)) = written this)
  /\ (written (snd (_processToken tok this)) = written this
      \/ exists v, truthy v = true
           /\ found_token (snd (_processToken tok this)) = v
           /\ session (snd (_processToken tok this)) = mkSession true v
           /\ written (snd (_processToken tok this))
               = (written this
                  ++ write_for (response this)
                       (serializeCookie (name this) v no_options))%list).
Proof.
  destruct (processToken_shape tok this) as [[e ->]|[->|[v [-> _]]]].
  - simpl. repeat (split; [done|]). by left.
  - rewrite not_found_spec. simpl. repeat (split; [done|]).
    split; [by intros s [= <-]|]. split; [done|]. by left.
  - set (th := set_found_token v this).
    destruct (persist_effect th) as (Hcfg & Hhook & Hft & Hret & Hoff & Hstale & Hon).
    split; [exact Hcfg|]. split; [exact Hhook|].
    split; [rewrite Hret; by intros s [= <-]|].
    split; [intros Hauto; by apply Hoff|].
    destruct (autoSetCookie th) eqn:Hauto.
    + destruct (truthy (found_token th)) eqn:Htruthy.
      * destruct (Hon eq_refl eq_refl) as [Hs Hw].
        right. exists (found_token th). by repeat split.
      * left. by rewrite (Hstale eq_refl eq_refl).
    + left. by apply Hoff.
Qed.

(** The own properties of the parsed object hold strings and
    [undefined]. *)
Lemma foldl_assign_pair_values (l : list (list string)) (acc : gmap string jsval)
    (k : string) (v : jsval) :
  foldl assign_pair acc l !! k = Some v ->
  acc !! k = Some v \/ is_hook_return v = true /\ v ≠ JNull.
Proof.
  revert acc. induction l as [|val l IH]; intros acc; simpl; [by left|].
  intros [Hacc|Hv]%IH; [|by right].
  destruct val as [|key rest]; simpl in Hacc.
  - destruct (decide ("undefined" = k)) as [<-|Hk].
    + rewrite lookup_insert_eq in Hacc. injection Hacc as <-. by right.
    + rewrite lookup_insert_ne in Hacc by done. by left.
  - destruct (String.eqb key "__proto__"); [by left|].
    destruct (decide (key = k)) as [->|Hk].
    + rewrite lookup_insert_eq in Hacc. injection Hacc as <-. right.
      unfold index. by destruct (_ !! 1).
    + rewrite lookup_insert_ne in Hacc by done. by left.
Qed.

(** What the read [parsed[key]] can give when it is truthy: a non-empty
    string of the parameters, or a member of [Object.prototype]. *)
Lemma parsed_prop_truthy (p key : string) :
  truthy (prop (parse_params p) key) = true ->
  (exists t, prop (parse_params p) key = JStr t /\ t ≠ "")
  \/ (prop (parse_params p) key = Object_prototype key
      /\ truthy (Object_prototype key) = true).
Proof.
  unfold prop. destruct (parse_params p !! key) as [v|] eqn:Hlook; [|by right].
  intros Hv. left.
  apply foldl_assign_pair_values in Hlook as [Hempty|[Hty _]].
  - by rewrite lookup_empty in Hempty.
  - by apply hook_return_truthy.
Qed.

Lemma urlParamCheck_candidate (p : string) (th : Satpam) :
  exists tok,
    _urlParamCheck (JStr p) th = _processToken tok th
    /\ ((exists t, tok = JStr t)
        \/ (tok = Object_prototype (urlCheck th) /\ truthy tok = true)).
Proof.
  unfold _urlParamCheck, bind, get.
  destruct (truthy _) eqn:Htruthy.
  - apply parsed_prop_truthy in Htruthy as [(t & -> & _)|[-> Hproto]].
    + exists (JStr t). split; [done|]. left. by exists t.
    + eexists. split; [done|]. by right.
  - exists (JStr ""). split; [done|]. left. by exists "".
Qed.

(** [verify] sets the hook and hands one candidate to [_processToken]: a
    string, or what line 166 reads from the [URLSearchParams], or a
    member of [Object.prototype] found under [urlCheck]. *)
Lemma verify_candidate (cb : option hook_fn) (this : Satpam) :
  exists tok,
    verify cb this = _processToken tok (set_hook cb this)
    /\ ((exists t, tok = JStr t)
        \/ (exists u, url (request this) = UrlObject u
                      /\ searchParams_has u (urlCheck this) = true
                      /\ tok = searchParams_prop u (urlCheck this))
        \/ (tok = Object_prototype (urlCheck this) /\ truthy tok = true)).
Proof.
  set (th := set_hook cb this).
  set (kind := fun tok : jsval =>
         (exists t, tok = JStr t)
         \/ (exists u, url (request this) = UrlObject u
                       /\ searchParams_has u (urlCheck this) = true
                       /\ tok = searchParams_prop u (urlCheck this))
         \/ (tok = Object_prototype (urlCheck this) /\ truthy tok = true)).
  change (exists tok, verify cb this = _processToken tok th /\ kind tok).
  assert (Hstr : forall t, exists tok,
            _processToken (JStr t) th = _processToken tok th /\ kind tok).
  { intros t. exists (JStr t). split; [done|]. left. by exists t. }
  assert (Hpar : forall p, exists tok,
            _urlParamCheck (JStr p) th = _processToken tok th /\ kind tok).
  { intros p. destruct (urlParamCheck_candidate p th) as (tok & -> & [Ht|Hp]).
    - exists tok. split; [done|]. by left.
    - exists tok. split; [done|]. right; by right. }
  unfold verify, bind, get, modify. cbv beta iota. fold th.
  change (name th) with (name this). change (request th) with (request this).
  destruct (truthy _) eqn:Hcookie.
  { unfold cookie_entry in *.
    destruct (parseCookies _ !! name this) as [t|]; [apply Hstr|discriminate]. }
  cbv beta iota.
  change (urlCheck th) with (urlCheck this).
  change (request th) with (request this).
  destruct (_ || _); [apply Hstr|].
  destruct (url (request this)) as [|s|u] eqn:Hurl; [apply Hstr| |].
  - rewrite check_url_string_eq.
    destruct (nonempty (part_after "?" s)); [apply Hpar|].
    destruct (nonempty (part_after "#" s)); [apply Hpar|apply Hstr].
  - unfold check_url_object.
    destruct (searchParams_has u (urlCheck this)) eqn:Hhas.
    + eexists. split; [done|]. right; left. by exists u.
    + destruct (negb _); [apply Hpar|apply Hstr].
Qed.

(** X6.  [getSession] after [verify] gives the session [verify] returned:
    the returned value and the stored session never differ. *)
Theorem verify_returns_stored_session (cb : option hook_fn) (this : Satpam)
    (s : SatpamSession) (this' : Satpam) :
  verify cb this = (Return s, this') ->
  getSession this' = s.
Proof.
  destruct (verify_candidate cb this) as (tok & -> & _).
  intros Hrun.
  destruct (processToken_effect tok (set_hook cb this)) as (_ & _ & Hret & _).
  rewrite Hrun in Hret. unfold getSession. symmetry. by apply Hret.
Qed.

(** X7.  [verify] never changes the configuration, the request or the
    response of the instance; it installs its argument as the hook. *)
Theorem verify_keeps_configuration (cb : option hook_fn) (this : Satpam) :
  same_configuration this (snd (verify cb this))
  /\ hook (snd (verify cb this)) = cb.
Proof.
  destruct (verify_candidate cb this) as (tok & -> & _).
  destruct (processToken_effect tok (set_hook cb this)) as (Hcfg & Hhook & _).
  split; [exact Hcfg|exact Hhook].
Qed.


(** X9.  When the hook keeps to its return type and [urlCheck] is no
    member of [Object.prototype], then, unless the request url is a [URL]
    instance whose [searchParams] has the [urlCheck] parameter, the
    session that [verify] returns meets the invariant: its status is
    [true] exactly when its token is a non-empty string. *)
Theorem verify_keeps_invariant (cb : option hook_fn) (this : Satpam)
    (s : SatpamSession) (this' : Satpam) :
  hook_typed cb ->
  Object_prototype (urlCheck this) = JUndefined ->
  (forall u, url (request this) = UrlObject u ->
             searchParams_has u (urlCheck this) = false) ->
  verify cb this = (Return s, this') ->
  session_invariant s /\ session_invariant (getSession this').
Proof.
  intros Htyped Hproto Hurl.
  destruct (verify_candidate cb this)
    as (tok & -> & [[t ->]|[(u & Hu & Hhas & _)|[-> Htruthy]]]).
  - intros Hrun.
    destruct (processToken_string_invariant t (set_hook cb this) _ _ Htyped Hrun)
      as [-> Hinv].
    by split.
  - rewrite (Hurl u Hu) in Hhas. discriminate.
  - rewrite Hproto in Htruthy. discriminate.
Qed.

(** ** From the url to the token *)

Lemma includes_app (c : ascii) (a b : string) :
  includes c (a +:+ b) = includes c a || includes c b.
Proof.
  induction a as [|x a IH]; simpl; [done|].
  by destruct (Ascii.eqb x c).
Qed.

Lemma includes_cons (c x : ascii) (s : string) :
  includes c (String x s) = Ascii.eqb x c || includes c s.
Proof. simpl. by destruct (Ascii.eqb x c). Qed.

Lemma free_of_cons (c : ascii) (cs : list ascii) (s : string) :
  free_of (c :: cs) s = true <-> includes c s = false /\ free_of cs s = true.
Proof.
  unfold free_of. simpl. rewrite andb_true_iff, negb_true_iff. reflexivity.
Qed.

Lemma string_cons_neq (c : ascii) (s : string) : String c s ≠ s.
Proof.
  revert c. induction s as [|a s IH]; intros c; [discriminate|].
  intros [= -> H]. by apply (IH a).
Qed.

Lemma append_nonempty (a : string) (c : ascii) (b : string) :
  a +:+ String c b ≠ "".
Proof. by destruct a. Qed.

Lemma nonempty_JStr (p : string) : p ≠ "" -> nonempty (JStr p) = Some p.
Proof. intros H. unfold nonempty. by rewrite (proj2 (String.eqb_neq _ _) H). Qed.

(** The piece cut out by [split] when the separator occurs once. *)
Lemma part_after_once (c : ascii) (before after : string) :
  includes c before = false ->
  includes c after = false ->
  part_after c (before +:+ String c after) = JStr after.
Proof.
  intros Hb Ha. unfold part_after.
  rewrite includes_app, includes_cons, Ascii.eqb_refl, orb_true_r.
  by rewrite split_app, (split_no_sep _ _ Hb), (split_no_sep _ _ Ha).
Qed.

Lemma part_after_absent (c : ascii) (s : string) :
  includes c s = false -> part_after c s = JUndefined.
Proof. intros H. unfold part_after. by rewrite H. Qed.

Lemma split_pair (k v : string) :
  includes "=" k = false ->
  includes "=" v = false ->
  split "=" (k +:+ String "=" v) = [k; v].
Proof.
  intros Hk Hv.
  by rewrite split_app, (split_no_sep _ _ Hk), (split_no_sep _ _ Hv).
Qed.

(** Without a usable cookie and with a [urlCheck], [verify] goes by the
    url. *)
Lemma string_url_route (cb : option hook_fn) (this : Satpam) (s : string) :
  truthy (cookie_entry (parseCookies (cookie_header (request this))) (name this)) = false ->
  urlCheck this ≠ "" ->
  url (request this) = UrlString s ->
  s ≠ "" ->
  verify cb this
    = match check_url_string s with
      | Some m => m
      | None => _processToken (JStr "")
      end (set_hook cb this).
Proof.
  intros Hcookie Hkey Hurl Hs.
  unfold verify, bind, get, modify. cbv beta iota.
  change (name (set_hook cb this)) with (name this).
  change (request (set_hook cb this)) with (request this).
  rewrite Hcookie. cbv beta iota.
  change (request (set_hook cb this)) with (request this).
  change (urlCheck (set_hook cb this)) with (urlCheck this).
  rewrite Hurl. unfold url_falsy.
  by rewrite (proj2 (String.eqb_neq _ _) Hkey), (proj2 (String.eqb_neq _ _) Hs).
Qed.

Lemma url_object_route (cb : option hook_fn) (this : Satpam) (u : URL) :
  truthy (cookie_entry (parseCookies (cookie_header (request this))) (name this)) = false ->
  urlCheck this ≠ "" ->
  url (request this) = UrlObject u ->
  verify cb this
    = match check_url_object u (urlCheck this) with
      | Some m => m
      | None => _processToken (JStr "")
      end (set_hook cb this).
Proof.
  intros Hcookie Hkey Hurl.
  unfold verify, bind, get, modify. cbv beta iota.
  change (name (set_hook cb this)) with (name this).
  change (request (set_hook cb this)) with (request this).
  rewrite Hcookie. cbv beta iota.
  change (request (set_hook cb this)) with (request this).
  change (urlCheck (set_hook cb this)) with (urlCheck this).
  rewrite Hurl. unfold url_falsy.
  by rewrite (proj2 (String.eqb_neq _ _) Hkey).
Qed.

Lemma urlParamCheck_found (p : string) (v : string) (th : Satpam) :
  prop (parse_params p) (urlCheck th) = JStr v ->
  v ≠ "" ->
  _urlParamCheck (JStr p) th = _processToken (JStr v) th.
Proof.
  intros Hp Hv. unfold _urlParamCheck, bind, get. rewrite Hp.
  by rewrite (proj2 (truthy_JStr v) Hv).
Qed.

Lemma urlParamCheck_missing (p : string) (th : Satpam) :
  truthy (prop (parse_params p) (urlCheck th)) = false ->
  _urlParamCheck (JStr p) th = _processToken (JStr "") th.
Proof.
  intros Hp. unfold _urlParamCheck, bind, get. by rewrite Hp.
Qed.

Lemma processToken_found_no_hook (t : string) (this : Satpam) :
  t ≠ "" ->
  hook this = None ->
  fst (_processToken (JStr t) this) = Return (mkSession true (JStr t))
  /\ session (snd (_processToken (JStr t) this)) = mkSession true (JStr t)
  /\ found_token (snd (_processToken (JStr t) this)) = JStr t.
Proof.
  intros Ht Hhook.
  assert (Heq : _processToken (JStr t) this
                = persist (set_found_token (JStr t) this)).
  { unfold _processToken. rewrite (is_empty_string_JStr t Ht).
    unfold bind, get, ret, modify. by rewrite Hhook. }
  rewrite Heq.
  destruct (persist_found (set_found_token (JStr t) this))
    as (this' & -> & Hs & Hf & _); [by apply truthy_JStr|].
  simpl. by rewrite Hs, Hf.
Qed.

Lemma parse_single_pair (k v : string) :
  k ≠ "__proto__" ->
  includes "=" k = false -> includes "=" v = false ->
  includes "&" k = false -> includes "&" v = false ->
  parse_params (k +:+ String "=" v) = <[k := JStr v]> ∅.
Proof.
  intros Hproto Hk Hv Hk' Hv'.
  rewrite parse_params_single.
  - by rewrite split_pair, assign_pair_cons.
  - by rewrite includes_app, includes_cons, Hk', Hv'.
Qed.

Lemma not_inherited_not_proto (k : string) :
  Object_prototype k = JUndefined -> k ≠ "__proto__".
Proof. intros H ->. discriminate H. Qed.

Lemma ordinary_name_spec (k : string) :
  ordinary_name k = true ->
  Object_prototype k = JUndefined
  /\ forall u, searchParams_prop u k = JUndefined.
Proof.
  unfold ordinary_name, searchParams_prop, Object_prototype.
  intros (((H1 & H2)%andb_true_iff & H3)%andb_true_iff & H4)%andb_true_iff.
  apply negb_true_iff in H1, H2, H3, H4.
  by rewrite H1, H2, H3, H4.
Qed.

(** X10.  A string url [path?key=v] whose pieces are free of the separator
    characters resolves to [v] when [key] is [urlCheck] and there is no
    usable cookie: [v] is the candidate handed to [_processToken], and
    without a hook the session is [{status: true, token: v}].  [v] may
    contain ['#']: the query is not cut at the fragment.  The key
    ['__proto__'], under which the parser stores nothing, is left out. *)
Theorem query_parameter_resolves (cb : option hook_fn) (this : Satpam)
    (path key v : string) :
  truthy (cookie_entry (parseCookies (cookie_header (request this))) (name this)) = false ->
  url (request this) = UrlString (path +:+ "?" +:+ key +:+ "=" +:+ v) ->
  urlCheck this = key ->
  key ≠ "__proto__" ->
  key ≠ "" -> v ≠ "" ->
  includes "?" path = false ->
  free_of ["?"; "&"; "="]%char key = true ->
  free_of ["?"; "&"; "="]%char v = true ->
  verify cb this = _processToken (JStr v) (set_hook cb this)
  /\ (cb = None ->
        fst (verify cb this) = Return (mkSession true (JStr v))
        /\ found_token (snd (verify cb this)) = JStr v).
Proof.
  intros Hcookie Hurl Hcheck Hproto Hkey Hv Hpath
    (Hk1 & (Hk2 & (Hk3 & _)%free_of_cons)%free_of_cons)%free_of_cons
    (Hv1 & (Hv2 & (Hv3 & _)%free_of_cons)%free_of_cons)%free_of_cons.
  change ("?" +:+ key +:+ "=" +:+ v) with (String "?" (key +:+ String "=" v)) in Hurl.
  assert (Hrun : verify cb this = _processToken (JStr v) (set_hook cb this)).
  { rewrite (string_url_route cb this _ Hcookie) by
      first [by rewrite Hcheck | exact Hurl | apply append_nonempty].
    rewrite check_url_string_eq, part_after_once; [|done|].
    - rewrite (nonempty_JStr _ (append_nonempty key "=" v)).
      apply urlParamCheck_found; [|done].
      change (urlCheck (set_hook cb this)) with (urlCheck this).
      rewrite Hcheck, parse_single_pair by done.
      unfold prop. by rewrite lookup_insert_eq.
    - by rewrite includes_app, includes_cons, Hk1, Hv1. }
  split; [exact Hrun|].
  intros ->. rewrite Hrun.
  destruct (processToken_found_no_hook v (set_hook None this) Hv eq_refl)
    as (H1 & _ & H3).
  by split.
Qed.

(** X11.  A string url [path#key=v] without any ['?'] resolves to [v] when
    [key] is [urlCheck] and there is no usable cookie: the fragment is
    consulted when the url has no query.  The key ['__proto__'], under
    which the parser stores nothing, is left out. *)
Theorem fragment_parameter_resolves (cb : option hook_fn) (this : Satpam)
    (path key v : string) :
  truthy (cookie_entry (parseCookies (cookie_header (request this))) (name this)) = false ->
  url (request this) = UrlString (path +:+ "#" +:+ key +:+ "=" +:+ v) ->
  urlCheck this = key ->
  key ≠ "__proto__" ->
  key ≠ "" -> v ≠ "" ->
  free_of ["?"; "#"]%char path = true ->
  free_of ["?"; "#"; "&"; "="]%char key = true ->
  free_of ["?"; "#"; "&"; "="]%char v = true ->
  verify cb this = _processToken (JStr v) (set_hook cb this)
  /\ (cb = None ->
        fst (verify cb this) = Return (mkSession true (JStr v))
        /\ found_token (snd (verify cb this)) = JStr v).
Proof.
  intros Hcookie Hurl Hcheck Hproto Hkey Hv
    (Hp1 & (Hp2 & _)%free_of_cons)%free_of_cons
    (Hk1 & (Hk2 & (Hk3 & (Hk4 & _)%free_of_cons)%free_of_cons)%free_of_cons)%free_of_cons
    (Hv1 & (Hv2 & (Hv3 & (Hv4 & _)%free_of_cons)%free_of_cons)%free_of_cons)%free_of_cons.
  change ("#" +:+ key +:+ "=" +:+ v) with (String "#" (key +:+ String "=" v)) in Hurl.
  assert (Hrun : verify cb this = _processToken (JStr v) (set_hook cb this)).
  { rewrite (string_url_route cb this _ Hcookie) by
      first [by rewrite Hcheck | exact Hurl | apply append_nonempty].
    rewrite check_url_string_eq, part_after_absent, part_after_once; [|done| |].
    - change (nonempty JUndefined) with (@None string). cbv iota.
      rewrite (nonempty_JStr _ (append_nonempty key "=" v)).
      apply urlParamCheck_found; [|done].
      change (urlCheck (set_hook cb this)) with (urlCheck this).
      rewrite Hcheck, parse_single_pair by done.
      unfold prop. by rewrite lookup_insert_eq.
    - by rewrite includes_app, includes_cons, Hk2, Hv2.
    - rewrite !includes_app, !includes_cons, !includes_app, !includes_cons.
      by rewrite Hp1, Hk1, Hv1. }
  split; [exact Hrun|].
  intros ->. rewrite Hrun.
  destruct (processToken_found_no_hook v (set_hook None this) Hv eq_refl)
    as (H1 & _ & H3).
  by split.
Qed.

(** X12.  For a [URL] instance whose [searchParams] lacks [urlCheck], the
    hash is parsed with its leading ['#']: the first pair of the hash
    [#key=v] is stored under ['#key'] and is not found, while a later pair
    ([#other&key=v]) is.  This is for a [urlCheck] that is no member of
    [Object.prototype]; such a member would be found in place of the
    missing entry. *)
Theorem url_object_hash_first_key_lost (cb : option hook_fn) (this : Satpam)
    (u : URL) (key v other : string) :
  truthy (cookie_entry (parseCookies (cookie_header (request this))) (name this)) = false ->
  url (request this) = UrlObject u ->
  urlCheck this = key ->
  Object_prototype key = JUndefined ->
  key ≠ "" -> v ≠ "" ->
  searchParams_has u key = false ->
  free_of ["&"; "="]%char key = true ->
  free_of ["&"; "="]%char v = true ->
  (hash u = "#" +:+ key +:+ "=" +:+ v ->
     verify cb this = _processToken (JStr "") (set_hook cb this))
  /\ (hash u = "#" +:+ other +:+ "&" +:+ key +:+ "=" +:+ v ->
     verify cb this = _processToken (JStr v) (set_hook cb this)).
Proof.
  intros Hcookie Hurl Hcheck Hproto Hkey Hv Hhas
    (Hk1 & (Hk2 & _)%free_of_cons)%free_of_cons
    (Hv1 & (Hv2 & _)%free_of_cons)%free_of_cons.
  assert (Hroute : forall h, hash u = String "#" h ->
            verify cb this = _urlParamCheck (JStr (String "#" h)) (set_hook cb this)).
  { intros h Hh.
    rewrite (url_object_route cb this u Hcookie) by
      first [by rewrite Hcheck | exact Hurl].
    unfold check_url_object. by rewrite Hcheck, Hhas, Hh. }
  split; intros Hhash.
  - rewrite (Hroute _ Hhash). apply urlParamCheck_missing.
    change (urlCheck (set_hook cb this)) with (urlCheck this). rewrite Hcheck.
    change (String "#" (key +:+ "=" +:+ v))
      with (String "#" key +:+ String "=" v).
    rewrite parse_single_pair; [|discriminate|by rewrite includes_cons, Hk2|done
                                |by rewrite includes_cons, Hk1|done].
    unfold prop. rewrite lookup_insert_ne by apply string_cons_neq.
    by rewrite lookup_empty, Hproto.
  - rewrite (Hroute _ Hhash). apply urlParamCheck_found; [|done].
    change (urlCheck (set_hook cb this)) with (urlCheck this). rewrite Hcheck.
    change (String "#" (other +:+ "&" +:+ key +:+ "=" +:+ v))
      with (String "#" other +:+ String "&" (key +:+ String "=" v)).
    rewrite parse_params_snoc by (by rewrite includes_app, includes_cons, Hk1, Hv1).
    rewrite split_pair, assign_pair_cons
      by first [done | by apply not_inherited_not_proto].
    unfold prop. by rewrite lookup_insert_eq.
Qed.

(** X13.  For a [URL] instance whose [searchParams] has [urlCheck], without
    usable cookie and without hook, and with a [urlCheck] that names no
    member of the prototypes of [URLSearchParams] (so that the read of
    line 166 gives [undefined]), [verify] never looks at the value of the
    parameter.  With [autoSetCookie] it returns the session stored before
    the call and writes nothing; without, it stores
    [{status: true, token: undefined}]. *)
Theorem url_object_param_keeps_stored_session (this : Satpam) (u : URL) :
  truthy (cookie_entry (parseCookies (cookie_header (request this))) (name this)) = false ->
  urlCheck this ≠ "" ->
  url (request this) = UrlObject u ->
  searchParams_has u (urlCheck this) = true ->
  searchParams_prop u (urlCheck this) = JUndefined ->
  verify None this
    = if autoSetCookie this
      then (Return (session this),
            set_found_token JUndefined (set_hook None this))
      else (Return (mkSession true JUndefined),
            set_session (mkSession true JUndefined)
              (set_found_token JUndefined (set_hook None this))).
Proof.
  intros Hcookie Hkey Hurl Hhas Hprop.
  rewrite (url_object_route None this u Hcookie Hkey Hurl).
  unfold check_url_object. rewrite Hhas, Hprop.
  unfold _processToken. simpl is_empty_string. cbv iota.
  unfold bind, get, ret, modify, persist, bind, get, modify, call_setSession.
  simpl. by destruct (autoSetCookie this).
Qed.

(** X14.  With an empty [urlCheck] the request url plays no part: over any
    other url [verify] returns the same and leaves the same instance, up
    to the url. *)
Theorem empty_urlCheck_ignores_url (cb : option hook_fn) (this : Satpam)
    (u : url_value) :
  urlCheck this = "" ->
  verify cb (with_url u this)
    = (fst (verify cb this), with_url u (snd (verify cb this))).
Proof.
  intros Hkey.
  assert (Hrun : forall th, urlCheck th = "" ->
            exists tok, forall w,
              cookie_header (request w) = cookie_header (request th) ->
              name w = name th -> urlCheck w = "" ->
              verify cb w = _processToken tok (set_hook cb w)).
  { intros th Hth.
    exists (if truthy (cookie_entry (parseCookies (cookie_header (request th))) (name th))
            then cookie_entry (parseCookies (cookie_header (request th))) (name th)
            else JStr "").
    intros w Hc Hn Hw.
    unfold verify, bind, get, modify. cbv beta iota.
    change (name (set_hook cb w)) with (name w).
    change (request (set_hook cb w)) with (request w).
    rewrite Hc, Hn.
    destruct (truthy _); [done|]. cbv beta iota.
    change (urlCheck (set_hook cb w)) with (urlCheck w). by rewrite Hw. }
  destruct (Hrun this Hkey) as [tok Htok].
  rewrite (Htok this), (Htok (with_url u this)) by done.
  replace (set_hook cb (with_url u this))
    with (elsewhere u "" (set_hook cb this))
    by (destruct this; simpl in *; by subst).
  rewrite framed_processToken. f_equal.
  destruct (_processToken tok (set_hook cb this)) as [r th] eqn:Hres.
  pose proof (processToken_effect tok (set_hook cb this)) as ((_ & _ & _ & Hk & _) & _).
  rewrite Hres in Hk. simpl in *. rewrite Hkey in Hk.
  destruct th; simpl in *; by subst.
Qed.

(** X15.  The cookie written for a token brings that token back: when the
    parser reads the serialized cookie of [tok] back under the cookie
    name, a later request that carries the string returned by
    [setSession] is verified (without hook) to
    [{status: true, token: tok}]. *)
Theorem cookie_round_trip (tok : string) opt (this next : Satpam) :
  tok ≠ "" ->
  parseCookies (JStr (serializeCookie (name this) (JStr tok) opt)) !! name this = Some tok ->
  name next = name this ->
  fst (setSession (JStr tok) opt this) = Some (serializeCookie (name this) (JStr tok) opt)
  /\ (cookie_header (request next) = JStr (serializeCookie (name this) (JStr tok) opt) ->
      fst (verify None next) = Return (mkSession true (JStr tok))
      /\ getSession (snd (verify None next)) = mkSession true (JStr tok)).
Proof.
  intros Htok Hparse Hname.
  split; [by rewrite setSession_nonempty|].
  intros Hheader.
  assert (Hrun : verify None next = _processToken (JStr tok) (set_hook None next)).
  { unfold verify, bind, get, modify. cbv beta iota.
    change (name (set_hook None next)) with (name next).
    change (request (set_hook None next)) with (request next).
    rewrite Hheader, Hname, (cookie_prop _ _ _ Hparse).
    by rewrite (proj2 (truthy_JStr tok) Htok). }
  rewrite Hrun.
  destruct (processToken_found_no_hook tok (set_hook None next) Htok eq_refl)
    as (H1 & H2 & _).
  by split.
Qed.

(** ** More on the parameter parser *)

Lemma split_head (c : ascii) (s : string) :
  exists piece rest, split c s = piece :: rest.
Proof.
  pose proof (split_not_nil c s). destruct (split c s) as [|piece rest]; [done|].
  by exists piece, rest.
Qed.

Lemma foldl_assign_pair_lookup (l : list (list string)) (acc : gmap string jsval)
    (k : string) (v : jsval) :
  Forall (fun val => val ≠ []) l ->
  foldl assign_pair acc l !! k = Some v ->
  acc !! k = Some v
  \/ exists rest, (k :: rest) ∈ l /\ v = index (k :: rest) 1.
Proof.
  revert acc. induction l as [|val l IH]; intros acc Hne; simpl; [by left|].
  apply Forall_cons in Hne as [Hval Hl].
  intros [Hacc|(rest & Hin & Hv)]%(IH _ Hl).
  - destruct val as [|key rest]; [done|]. simpl in Hacc.
    destruct (String.eqb key "__proto__"); [by left|].
    destruct (decide (key = k)) as [->|Hk].
    + rewrite lookup_insert_eq in Hacc. injection Hacc as <-.
      right. exists rest. split; [apply list_elem_of_here|done].
    + rewrite lookup_insert_ne in Hacc by done. by left.
  - right. exists rest. split; [by apply list_elem_of_further|done].
Qed.

(** X16.  The parser never invents an entry: a key found in the parsed
    parameters is the piece before the first ['='] of one of the
    ['&']-separated items, and its value is the second piece of that item
    ([undefined] when the item has no ['=']). *)
Theorem parsed_entries_come_from_items (params k : string) (v : jsval) :
  parse_params params !! k = Some v ->
  exists item rest,
    item ∈ split "&" params
    /\ split "=" item = k :: rest
    /\ v = index (k :: rest) 1.
Proof.
  unfold parse_params.
  intros [Hempty|(rest & Hin & Hv)]%foldl_assign_pair_lookup.
  - by rewrite lookup_empty in Hempty.
  - apply list_elem_of_fmap in Hin as (item & Hitem & Hin).
    by exists item, rest.
  - apply Forall_forall. intros val (item & -> & _)%list_elem_of_fmap.
    apply split_not_nil.
Qed.

(** X17.  The last pair for a key decides: whatever comes before it, a
    final pair [key=v] leaves [v] under [key], for every key but
    ['__proto__'] (under which nothing is stored). *)
Theorem last_pair_wins (before k v : string) :
  k ≠ "__proto__" ->
  free_of ["&"; "="]%char k = true ->
  free_of ["&"; "="]%char v = true ->
  prop (parse_params (before +:+ "&" +:+ k +:+ "=" +:+ v)) k = JStr v.
Proof.
  intros Hproto (Hk1 & (Hk2 & _)%free_of_cons)%free_of_cons
         (Hv1 & (Hv2 & _)%free_of_cons)%free_of_cons.
  change ("&" +:+ k +:+ "=" +:+ v) with (String "&" (k +:+ String "=" v)).
  rewrite parse_params_snoc by (by rewrite includes_app, includes_cons, Hk1, Hv1).
  rewrite split_pair, assign_pair_cons by done. unfold prop.
  by rewrite lookup_insert_eq.
Qed.

(** X18.  A final item for [urlCheck] without value, [key] or [key=],
    counts as no token, even when an earlier pair gave one: the candidate
    handed to [_processToken] is the empty string.  This holds for every
    key but ['__proto__']: the item creates an own property, which hides
    what [Object.prototype] has under that name. *)
Theorem valueless_parameter_not_found (before k : string) (this : Satpam) :
  urlCheck this = k ->
  k ≠ "__proto__" ->
  free_of ["&"; "="]%char k = true ->
  _urlParamCheck (JStr (before +:+ "&" +:+ k)) this
    = _processToken (JStr "") this
  /\ _urlParamCheck (JStr (before +:+ "&" +:+ k +:+ "=")) this
    = _processToken (JStr "") this.
Proof.
  intros Hcheck Hproto (Hk1 & (Hk2 & _)%free_of_cons)%free_of_cons.
  split; apply urlParamCheck_missing; rewrite Hcheck.
  - change ("&" +:+ k) with (String "&" k).
    rewrite parse_params_snoc, (split_no_sep _ _ Hk2), assign_pair_cons by done.
    unfold prop. by rewrite lookup_insert_eq.
  - change ("&" +:+ k +:+ "=") with (String "&" (k +:+ String "=" "")).
    rewrite parse_params_snoc by (by rewrite includes_app, includes_cons, Hk1).
    rewrite split_pair, assign_pair_cons by done. unfold prop.
    by rewrite lookup_insert_eq.
Qed.

(** The value [_processToken] stores keeps to the hook's return type
    when the candidate and the hook do. *)
Lemma processToken_invariant_autoSetCookie (tok : jsval) (this : Satpam) :
  hook_typed (hook this) ->
  is_hook_return tok = true ->
  autoSetCookie this = true ->
  session_invariant (session this) ->
  session_invariant (session (snd (_processToken tok this))).
Proof.
  intros Htyped Htok Hauto Hinv.
  destruct (processToken_shape tok this) as [[e ->]|[->|[v [-> Hv]]]].
  - exact Hinv.
  - rewrite not_found_spec. split; discriminate.
  - assert (Hty : is_hook_return v = true).
    { destruct Hv as [->|(f & Hhook & Hf)]; [done|].
      by apply (Htyped f tok v). }
    destruct (persist_effect (set_found_token v this))
      as (_ & _ & _ & _ & _ & Hstale & Hon).
    destruct (truthy v) eqn:Htruthy.
    + destruct (Hon Hauto Htruthy) as [Hs _]. rewrite Hs.
      destruct (hook_return_truthy v Hty Htruthy) as (t & -> & Ht).
      unfold session_invariant. simpl.
      by rewrite (proj2 (String.eqb_neq _ _) Ht).
    + by rewrite (Hstale Hauto Htruthy).
Qed.

(** X19.  With [autoSetCookie] on (the default), a hook that keeps to its
    return type and a [urlCheck] that names no member of a prototype,
    [verify] keeps the invariant of the stored session, for every request,
    also when the hook raises. *)
Theorem verify_preserves_invariant_autoSetCookie (cb : option hook_fn)
    (this : Satpam) :
  autoSetCookie this = true ->
  hook_typed cb ->
  ordinary_name (urlCheck this) = true ->
  session_invariant (getSession this) ->
  session_invariant (getSession (snd (verify cb this))).
Proof.
  intros Hauto Htyped [Hproto Hsearch]%ordinary_name_spec Hinv.
  destruct (verify_candidate cb this)
    as (tok & -> & [[t ->]|[(u & _ & _ & ->)|[-> Htruthy]]]).
  - by apply processToken_invariant_autoSetCookie.
  - rewrite Hsearch. by apply processToken_invariant_autoSetCookie.
  - rewrite Hproto in Htruthy. discriminate.
Qed.

End Satpam.

(** * Runs on concrete requests *)

Local Abbreviation verify_ :=
  (verify unit tt simple_parseCookies simple_serializeCookie false).
Local Abbreviation setSession_ :=
  (setSession unit simple_serializeCookie false).
Local Abbreviation processToken_ :=
  (_processToken unit tt simple_serializeCookie false).

(** C2.  The string branch does not fall through from the query to the
    fragment.  With [urlCheck: 'tok'], no cookie and no hook:
    ['/p?a=1#tok=B'] resolves to [{status: false, token: ''}] although
    the fragment alone (['/p#tok=B']) resolves to ['B']; and
    ['/p?tok=A#tok=B'] resolves to ['A#tok']. *)
Theorem string_url_query_hides_fragment :
  fst (verify_ None (resolver_for (UrlString "/p?a=1#tok=B") None))
    = Return (mkSession false (JStr ""))
  /\ fst (verify_ None (resolver_for (UrlString "/p#tok=B") None))
    = Return (mkSession true (JStr "B"))
  /\ fst (verify_ None (resolver_for (UrlString "/p?tok=A#tok=B") None))
    = Return (mkSession true (JStr "A#tok")).
Proof. repeat split; vm_compute; reflexivity. Qed.

(** C3.  For the [URL] instance of ['http://h/p?tok=abc'] with
    [urlCheck: 'tok'], no cookie and no hook, the value ['abc'] of the
    parameter is not the resolved token: with the default options [verify]
    returns [{status: false, token: ''}] and writes nothing; with
    [autoSetCookie: false] it returns [{status: true, token: undefined}]. *)
Theorem url_object_query_value_lost :
  verify_ None (resolver_for (UrlObject url_with_query_tok) None)
    = (Return (mkSession false (JStr "")),
       resolver_for (UrlObject url_with_query_tok) None)
  /\ fst (verify_ None (resolver_for (UrlObject url_with_query_tok) (Some false)))
    = Return (mkSession true JUndefined).
Proof. split; vm_compute; reflexivity. Qed.

(** C4.  After [verify] has found the token ['old'] in the cookie,
    [setSession()] with the token left out returns nothing and changes
    nothing: no write is added and ['old'] is not serialized again. *)
Theorem setSession_omitted_token_noop :
  let this := snd (verify_ None (resolver_with_cookie UrlAbsent)) in
  found_token this = JStr "old"
  /\ written this = [AssignProp "Set-Cookie" "satpam=old"]
  /\ setSession_ JUndefined tt this = (None, this).
Proof. repeat split. Qed.

(** C5.  [setSession('abc')] on a fresh resolver returns the cookie string
    for ['abc'] and stores the session [{status: true, token: undefined}];
    [setSession('new')] after [verify] found ['old'] writes the cookie for
    ['new'] and stores [{status: true, token: 'old'}]. *)
Theorem setSession_stores_found_token :
  setSession_ (JStr "abc") tt fresh_resolver
    = (Some "satpam=abc",
       emit (AssignProp "Set-Cookie" "satpam=abc")
            (set_session (mkSession true JUndefined) fresh_resolver))
  /\ let this := snd (verify_ None (resolver_with_cookie UrlAbsent)) in
     fst (setSession_ (JStr "new") tt this) = Some "satpam=new"
     /\ getSession (snd (setSession_ (JStr "new") tt this))
        = mkSession true (JStr "old").
Proof. repeat split. Qed.

(** C6.  The invariant holds at construction and is broken by public
    operations: after [setSession('abc')] on a fresh resolver, and after
    [verify] on the [URL] instance of ['http://h/p?tok=abc'] with
    [autoSetCookie: false], the stored session has status [true] and the
    token [undefined]. *)
Theorem session_invariant_broken :
  session_invariant (getSession fresh_resolver)
  /\ ~ session_invariant
        (getSession (snd (setSession_ (JStr "abc") tt fresh_resolver)))
  /\ ~ session_invariant
        (getSession
           (snd (verify_ None
                   (resolver_for (UrlObject url_with_query_tok) (Some false))))).
Proof.
  split; [split; discriminate|].
  split; intros [H _]; specialize (H eq_refl); discriminate H.
Qed.

(** C8.  A request that carries no token can still be verified to status
    [true].  For the [URL] instance of ['http://h/p?tok='] (the parameter
    is there, its value is empty) with [urlCheck: 'tok'],
    [autoSetCookie: false], no cookie and no hook, [verify] returns
    [{status: true, token: undefined}]; for the string url ['/p?a=1'] with
    [urlCheck: 'toString'] it returns status [true] with the method of
    [Object.prototype] as token and writes a cookie for it. *)
Theorem no_token_yet_status_true :
  searchParams url_with_empty_tok = [("tok", "")]
  /\ fst (verify_ None (resolver_for (UrlObject url_with_empty_tok) (Some false)))
      = Return (mkSession true JUndefined)
  /\ parse_params "a=1" !! "toString" = None
  /\ fst (verify_ None (resolver_checking "toString" (UrlString "/p?a=1") None))
      = Return (mkSession true (JRef "Object.prototype.toString"))
  /\ written (snd (verify_ None
                     (resolver_checking "toString" (UrlString "/p?a=1") None)))
      = [AssignProp "Set-Cookie" "satpam=Object.prototype.toString"].
Proof. repeat split; vm_compute; reflexivity. Qed.

(** Under the key ['__proto__'] the pair [__proto__=a=b] stores nothing,
    and the read gives [Object.prototype], not ['a']. *)
Lemma proto_pair_not_stored :
  parse_params "__proto__=a=b" !! "__proto__" = None
  /\ prop (parse_params "__proto__=a=b") "__proto__" = JRef "Object.prototype"
  /\ prop (parse_params "__proto__=a=b") "__proto__" ≠ JStr "a".
Proof.
  split; [vm_compute; reflexivity|].
  split; [vm_compute; reflexivity|].
  vm_compute. discriminate.
Qed.

(** ** Instances of the general statements *)

Lemma cookie_precedence_witness :
  let this := resolver_with_cookie (UrlString "/p?tok=A") in
  simple_parseCookies (cookie_header (request this)) !! name this = Some "old"
  /\ "old" ≠ ""
  /\ verify_ None this = processToken_ (JStr "old") (set_hook None this)
  /\ forall u k,
       verify_ None (elsewhere u k this)
         = (fst (verify_ None this), elsewhere u k (snd (verify_ None this))).
Proof.
  split; [vm_compute; reflexivity|]. split; [discriminate|].
  apply (cookie_precedence unit tt simple_parseCookies simple_serializeCookie
           false None (resolver_with_cookie (UrlString "/p?tok=A")) "old");
    [vm_compute; reflexivity | discriminate].
Defined.

Lemma hook_replaces_found_token_witness :
  let this := resolver_with_cookie UrlAbsent in
  let resolves (h : option hook_fn) (r : string) :=
    exists this',
      processToken_ (JStr "old") (set_hook h this)
        = (Return (mkSession true (JStr r)), this')
      /\ session this' = mkSession true (JStr r)
      /\ found_token this' = JStr r in
  "old" ≠ ""
  /\ resolves (Some (constant_hook (JStr "new"))) "new"
  /\ resolves (Some (constant_hook JUndefined)) "old"
  /\ resolves None "old".
Proof.
  split; [discriminate|]. split; [|split].
  - refine (proj1 (hook_replaces_found_token unit tt simple_serializeCookie false
                     "old" _ _) (constant_hook (JStr "new")) "new" _ _ _);
      [discriminate | reflexivity | reflexivity | discriminate].
  - refine (proj1 (proj2 (hook_replaces_found_token unit tt simple_serializeCookie
                            false "old" _ _)) (constant_hook JUndefined) JUndefined _ _ _);
      [discriminate | reflexivity | reflexivity | reflexivity].
  - refine (proj2 (proj2 (hook_replaces_found_token unit tt simple_serializeCookie
                            false "old" _ _)) _);
      [discriminate | reflexivity].
Defined.

Lemma value_cut_at_second_equals_witness :
  "k" ≠ "__proto__"
  /\ includes "=" "k" = false
  /\ includes "=" "a" = false
  /\ prop (parse_params "k=a=b") "k" = JStr "a".
Proof.
  split; [discriminate|]. split; [reflexivity|]. split; [reflexivity|].
  refine (proj1 (proj1 (proj2 (value_cut_at_second_equals unit tt
                                 simple_serializeCookie false "k" "a" "b"
                                 _ eq_refl eq_refl)) eq_refl)).
  discriminate.
Defined.


(** ** Instances of the further statements *)

Local Abbreviation urlParamCheck_ :=
  (_urlParamCheck unit tt simple_serializeCookie false).

Lemma setSession_single_write_witness :
  "abc" ≠ ""
  /\ fst (setSession_ (JStr "abc") tt fresh_resolver) = Some "satpam=abc"
  /\ same_configuration fresh_resolver
       (snd (setSession_ (JStr "abc") tt fresh_resolver)).
Proof.
  split; [discriminate|].
  refine (let H := setSession_single_write unit simple_serializeCookie false
                     "abc" tt fresh_resolver _ in
          conj (proj1 H) (proj1 (proj2 H))).
  discriminate.
Defined.

Lemma setSession_null_uses_found_token_witness :
  let this := snd (verify_ None (resolver_with_cookie UrlAbsent)) in
  found_token this = JStr "old"
  /\ fst (setSession_ JNull tt this) = Some "satpam=old"
  /\ session (snd (setSession_ JNull tt this)) = mkSession true (JStr "old").
Proof.
  split; [reflexivity|].
  refine (proj2 (setSession_null_uses_found_token unit simple_serializeCookie
                   false "old" tt
                   (snd (verify_ None (resolver_with_cookie UrlAbsent))) _ _));
    [discriminate | reflexivity].
Defined.

Lemma hook_mints_token_witness :
  let this := resolver_with_hook (constant_hook (JStr "minted")) in
  fst (processToken_ (JStr "") this) = Return (mkSession true (JStr "minted"))
  /\ session (snd (processToken_ (JStr "") this)) = mkSession true (JStr "minted")
  /\ found_token (snd (processToken_ (JStr "") this)) = JStr "minted"
  /\ written (snd (processToken_ (JStr "") this))
       = [AssignProp "Set-Cookie" "satpam=minted"].
Proof.
  refine (hook_mints_token unit tt simple_serializeCookie false
            (constant_hook (JStr "minted")) "minted"
            (resolver_with_hook (constant_hook (JStr "minted"))) _ _ _);
    [reflexivity | reflexivity | discriminate].
Defined.

Lemma hook_declines_no_token_witness :
  let this := resolver_with_hook (constant_hook JUndefined) in
  processToken_ (JStr "") this
    = (Return (mkSession false (JStr "")),
       set_session (mkSession false (JStr "")) this).
Proof.
  refine (hook_declines_no_token unit tt simple_serializeCookie false
            (constant_hook JUndefined) JUndefined
            (resolver_with_hook (constant_hook JUndefined)) _ _ _);
    reflexivity.
Defined.

Lemma hook_exception_propagates_witness :
  let this := resolver_with_hook (throwing_hook (JStr "boom")) in
  processToken_ (JStr "old") this = (Throw (JStr "boom"), this).
Proof.
  refine (hook_exception_propagates unit tt simple_serializeCookie false
            (throwing_hook (JStr "boom")) (JStr "old") (JStr "boom")
            (resolver_with_hook (throwing_hook (JStr "boom"))) _ _);
    reflexivity.
Defined.

Lemma verify_returns_stored_session_witness :
  getSession (snd (verify_ None (resolver_with_cookie UrlAbsent)))
    = mkSession true (JStr "old").
Proof.
  refine (verify_returns_stored_session unit tt simple_parseCookies
            simple_serializeCookie false None (resolver_with_cookie UrlAbsent)
            (mkSession true (JStr "old"))
            (snd (verify_ None (resolver_with_cookie UrlAbsent))) _).
  vm_compute; reflexivity.
Defined.

Lemma verify_keeps_invariant_witness :
  let this := resolver_for (UrlString "/p?tok=A") None in
  session_invariant (mkSession true (JStr "A"))
  /\ session_invariant (getSession (snd (verify_ None this))).
Proof.
  refine (verify_keeps_invariant unit tt simple_parseCookies
            simple_serializeCookie false None
            (resolver_for (UrlString "/p?tok=A") None)
            (mkSession true (JStr "A"))
            (snd (verify_ None (resolver_for (UrlString "/p?tok=A") None)))
            _ _ _ _).
  - intros f tok v H. discriminate H.
  - reflexivity.
  - intros u H. discriminate H.
  - vm_compute; reflexivity.
Defined.

Lemma query_parameter_resolves_witness :
  let this := resolver_for (UrlString "/p?tok=A#x") None in
  fst (verify_ None this) = Return (mkSession true (JStr "A#x"))
  /\ found_token (snd (verify_ None this)) = JStr "A#x".
Proof.
  refine (proj2 (query_parameter_resolves unit tt simple_parseCookies
                   simple_serializeCookie false None
                   (resolver_for (UrlString "/p?tok=A#x") None)
                   "/p" "tok" "A#x" _ _ _ _ _ _ _ _ _) eq_refl);
    first [discriminate | vm_compute; reflexivity].
Defined.

Lemma fragment_parameter_resolves_witness :
  let this := resolver_for (UrlString "/p#tok=B") None in
  fst (verify_ None this) = Return (mkSession true (JStr "B"))
  /\ found_token (snd (verify_ None this)) = JStr "B".
Proof.
  refine (proj2 (fragment_parameter_resolves unit tt simple_parseCookies
                   simple_serializeCookie false None
                   (resolver_for (UrlString "/p#tok=B") None)
                   "/p" "tok" "B" _ _ _ _ _ _ _ _ _) eq_refl);
    first [discriminate | vm_compute; reflexivity].
Defined.

Lemma url_object_hash_first_key_lost_witness :
  (let this := resolver_for (UrlObject url_with_hash_tok) None in
   verify_ None this = processToken_ (JStr "") (set_hook None this))
  /\ (let this := resolver_for (UrlObject url_with_later_hash_tok) None in
      verify_ None this = processToken_ (JStr "B") (set_hook None this)).
Proof.
  split.
  - refine (proj1 (url_object_hash_first_key_lost unit tt simple_parseCookies
                     simple_serializeCookie false None
                     (resolver_for (UrlObject url_with_hash_tok) None)
                     url_with_hash_tok "tok" "B" "x" _ _ _ _ _ _ _ _ _) eq_refl);
      first [discriminate | vm_compute; reflexivity].
  - refine (proj2 (url_object_hash_first_key_lost unit tt simple_parseCookies
                     simple_serializeCookie false None
                     (resolver_for (UrlObject url_with_later_hash_tok) None)
                     url_with_later_hash_tok "tok" "B" "x" _ _ _ _ _ _ _ _ _) eq_refl);
      first [discriminate | vm_compute; reflexivity].
Defined.

Lemma url_object_param_keeps_stored_session_witness :
  let this := resolver_for (UrlObject url_with_query_tok) None in
  verify_ None this
    = (Return (session this), set_found_token JUndefined (set_hook None this)).
Proof.
  refine (url_object_param_keeps_stored_session unit tt simple_parseCookies
            simple_serializeCookie false
            (resolver_for (UrlObject url_with_query_tok) None)
            url_with_query_tok _ _ _ _ _);
    first [discriminate | vm_compute; reflexivity].
Defined.

Lemma empty_urlCheck_ignores_url_witness :
  verify_ None (with_url (UrlString "/p?tok=A") fresh_resolver)
    = (fst (verify_ None fresh_resolver),
       with_url (UrlString "/p?tok=A") (snd (verify_ None fresh_resolver))).
Proof.
  refine (empty_urlCheck_ignores_url unit tt simple_parseCookies
            simple_serializeCookie false None fresh_resolver
            (UrlString "/p?tok=A") _).
  reflexivity.
Defined.

Lemma cookie_round_trip_witness :
  fst (setSession_ (JStr "abc") tt fresh_resolver) = Some "satpam=abc"
  /\ fst (verify_ None resolver_after_round_trip)
       = Return (mkSession true (JStr "abc"))
  /\ getSession (snd (verify_ None resolver_after_round_trip))
       = mkSession true (JStr "abc").
Proof.
  refine (let H := cookie_round_trip unit tt simple_parseCookies
                     simple_serializeCookie false "abc" tt fresh_resolver
                     resolver_after_round_trip _ _ _ in
          conj (proj1 H) (proj2 H eq_refl));
    first [discriminate | vm_compute; reflexivity].
Defined.

Lemma parsed_entries_come_from_items_witness :
  exists item rest,
    item ∈ split "&" "a=1&tok=B"
    /\ split "=" item = "tok" :: rest
    /\ JStr "B" = index ("tok" :: rest) 1.
Proof.
  refine (parsed_entries_come_from_items "a=1&tok=B" "tok" (JStr "B") _).
  vm_compute; reflexivity.
Defined.

Lemma last_pair_wins_witness :
  prop (parse_params "tok=A&tok=B") "tok" = JStr "B".
Proof.
  refine (last_pair_wins "tok=A" "tok" "B" _ _ _);
    first [discriminate | reflexivity].
Defined.

Lemma valueless_parameter_not_found_witness :
  let this := resolver_for UrlAbsent None in
  urlParamCheck_ (JStr "tok=A&tok") this = processToken_ (JStr "") this
  /\ urlParamCheck_ (JStr "tok=A&tok=") this = processToken_ (JStr "") this.
Proof.
  refine (valueless_parameter_not_found unit tt simple_serializeCookie false
            "tok=A" "tok" (resolver_for UrlAbsent None) _ _ _);
    first [discriminate | reflexivity].
Defined.

Lemma verify_preserves_invariant_autoSetCookie_witness :
  session_invariant
    (getSession (snd (verify_ None (resolver_for (UrlObject url_with_query_tok) None)))).
Proof.
  refine (verify_preserves_invariant_autoSetCookie unit tt simple_parseCookies
            simple_serializeCookie false None
            (resolver_for (UrlObject url_with_query_tok) None) _ _ _ _).
  - reflexivity.
  - intros f tok v H. discriminate H.
  - reflexivity.
  - split; discriminate.
Defined.
